(** * Zoom recording cloud backup: a shallow embedding

    The development follows the four Python sources:

    - [utils/zoom.py]: [ZoomClient.per_delta], [ZoomClient.list_recordings],
      [RecordingFiles], [ZoomRecording];
    - [utils/file_io.py]: [update_meeting_json_file];
    - [utils/msgraph_utils.py]: [upload_large_file];
    - [zoom-recording-cloud-backup.py]: [format_filename],
      [download_recording], the ledger fallback and the per-file part of
      [main], and the [__main__] block.

    Conventions.  Python values that come from JSON are terms of [json];
    a Python [dict] is an association list in insertion order with the
    update discipline of [dict_set].  A [datetime] is an integer count of
    microseconds (the year-9999 ceiling of Python's [datetime] is not
    part of the model), a [timedelta] likewise.  Strings are byte
    strings; [str.lower] and [str.title] are given on the ASCII letters.
    Code that performs effects is written in a state-and-exception monad
    over an explicit world; what the network, the disk and the remote
    drive answer is an input of the model. *)

From Stdlib Require Import ZArith Lia String Ascii List Bool.
From stdpp Require Import base option list strings gmap sets pretty.

Set Warnings "-register-all".

Open Scope string_scope.
Open Scope list_scope.
Open Scope Z_scope.

(* ------------------------------------------------------------------ *)
(** * Python values *)
(* ------------------------------------------------------------------ *)

(** Exceptions that the modelled code can raise or let through. *)
Inductive exn : Type :=
| TypeError
| AttributeError
| KeyError (key : string)
| UnboundLocalError
| FileNotFoundError
| IsADirectoryError
| JSONDecodeError
| OSError
| ConnectTimeout
| ReadTimeout
| APIError (response_status_code : Z)
| OtherException (name : string).

Inductive result (A : Type) : Type :=
| Ok (a : A)
| Raise (e : exn).
Arguments Ok {A} a.
Arguments Raise {A} e.

(** Values produced by [json.load] / [response.json()]. *)
Inductive json : Type :=
| JNull
| JBool (b : bool)
| JNum (n : Z)
| JStr (s : string)
| JArr (items : list json)
| JObj (fields : list (string * json)).

(** A Python [dict] with string keys, in insertion order. *)
Definition dict : Type := list (string * json).

Fixpoint dict_get (k : string) (d : dict) : option json :=
  match d with
  | [] => None
  | (k', v) :: rest => if String.eqb k k' then Some v else dict_get k rest
  end.

(** [d[k] = v]: overwrite in place when the key exists, append otherwise. *)
Fixpoint dict_set (k : string) (v : json) (d : dict) : dict :=
  match d with
  | [] => [(k, v)]
  | (k', v') :: rest =>
      if String.eqb k k' then (k, v) :: rest else (k', v') :: dict_set k v rest
  end.

(** [d.update(m)]. *)
Definition dict_update (d m : dict) : dict :=
  fold_left (fun acc kv => dict_set (fst kv) (snd kv) acc) m d.

Definition dict_keys (d : dict) : list string := map fst d.

(** [k in d]. *)
Definition dict_mem (k : string) (d : dict) : bool :=
  match dict_get k d with Some _ => true | None => false end.

(** [d.get(k, default)]. *)
Definition py_get (d : dict) (k : string) (default : json) : json :=
  match dict_get k d with Some v => v | None => default end.

(** [v == "literal"] for a JSON value [v]. *)
Definition eq_str (v : json) (s : string) : bool :=
  match v with JStr t => String.eqb t s | _ => false end.

(* ------------------------------------------------------------------ *)
(** * Strings: the [str] methods the program calls *)
(* ------------------------------------------------------------------ *)

Definition is_upper (c : ascii) : bool :=
  let n := nat_of_ascii c in (Nat.leb 65 n && Nat.leb n 90)%bool.
Definition is_lower (c : ascii) : bool :=
  let n := nat_of_ascii c in (Nat.leb 97 n && Nat.leb n 122)%bool.
Definition is_cased (c : ascii) : bool := (is_upper c || is_lower c)%bool.

Definition lower_char (c : ascii) : ascii :=
  if is_upper c then ascii_of_nat (nat_of_ascii c + 32) else c.
Definition upper_char (c : ascii) : ascii :=
  if is_lower c then ascii_of_nat (nat_of_ascii c - 32) else c.

Fixpoint map_string (f : ascii -> ascii) (s : string) : string :=
  match s with
  | EmptyString => EmptyString
  | String c rest => String (f c) (map_string f rest)
  end.

Fixpoint filter_string (keep : ascii -> bool) (s : string) : string :=
  match s with
  | EmptyString => EmptyString
  | String c rest =>
      if keep c then String c (filter_string keep rest)
      else filter_string keep rest
  end.

(** [s.lower()]. *)
Definition lower (s : string) : string := map_string lower_char s.

(** [s.replace(a, b)] for one-character [a] and [b]. *)
Definition replace_char (a b : ascii) (s : string) : string :=
  map_string (fun c => if Ascii.eqb c a then b else c) s.

(** [s.title()]: a cased character is upper-cased when the previous
    character is not cased, lower-cased otherwise. *)
Fixpoint title_from (prev_cased : bool) (s : string) : string :=
  match s with
  | EmptyString => EmptyString
  | String c rest =>
      String (if prev_cased then lower_char c else upper_char c)
             (title_from (is_cased c) rest)
  end.
Definition title (s : string) : string := title_from false s.

(** Membership of a character in a string. *)
Fixpoint char_in (c : ascii) (s : string) : bool :=
  match s with
  | EmptyString => false
  | String c' rest => (Ascii.eqb c c' || char_in c rest)%bool
  end.

(* ------------------------------------------------------------------ *)
(** * [ZoomClient.per_delta] (utils/zoom.py) *)
(* ------------------------------------------------------------------ *)

(** A [datetime], and a [timedelta], in microseconds. *)
Definition datetime : Type := Z.
Definition timedelta : Type := Z.

Definition days (n : Z) : timedelta := n * 86400 * 1000000.

(** The generator, run to completion.  One unit of fuel is spent per
    [yield]; [None] means the fuel ran out before [curr < end] became
    false. *)
Fixpoint per_delta_fuel (fuel : nat) (curr end_ : datetime) (delta : timedelta)
  : option (list (datetime * datetime)) :=
  if curr <? end_ then
    match fuel with
    | O => None
    | S fuel' =>
        match per_delta_fuel fuel' (curr + delta) end_ delta with
        | Some rest => Some ((curr, Z.min (curr + delta) end_) :: rest)
        | None => None
        end
    end
  else Some [].

(** With a positive [delta] the loop yields at most
    [(end - start) / delta + 1] windows, so that much fuel is always
    enough; with [delta <= 0] and [start < end] the Python loop never
    ends and the model answers [None] whatever the fuel. *)
Definition per_delta (start end_ : datetime) (delta : timedelta)
  : option (list (datetime * datetime)) :=
  per_delta_fuel (Z.to_nat ((end_ - start) / delta + 1)) start end_ delta.


(* ------------------------------------------------------------------ *)
(** * [RecordingFiles] and [ZoomRecording] (utils/zoom.py) *)
(* ------------------------------------------------------------------ *)

(** Iterating over a JSON value: a list gives its items, a dict its
    keys, a string its characters; the other values are not iterable. *)
Definition py_iter (v : json) : result (list json) :=
  match v with
  | JArr items => Ok items
  | JObj fields => Ok (map (fun kv => JStr (fst kv)) fields)
  | JStr s => Ok (map (fun c => JStr (String c EmptyString)) (list_ascii_of_string s))
  | JNull | JBool _ | JNum _ => Raise TypeError
  end.

Module RecordingFiles.

Record t : Type := mk {
  download_url : json;
  file_extension : string;
  id : json;
  status : json;
  type : json
}.

(** [RecordingFiles.__init__(file_json)].  [file_json.get] needs a dict;
    [.lower()] exists on [str] only, so a missing key (default [None])
    and any non-string value raise [AttributeError]. *)
Definition init (file_json : json) : result t :=
  match file_json with
  | JObj d =>
      match py_get d "file_extension" JNull with
      | JStr ext =>
          Ok {| download_url := py_get d "download_url" JNull;
                file_extension := lower ext;
                id := py_get d "id" JNull;
                status := py_get d "_status" (JStr "pending");
                type := py_get d "recording_type" JNull |}
      | _ => Raise AttributeError
      end
  | _ => Raise AttributeError
  end.

Definition to_json (f : t) : dict :=
  [ ("download_url", download_url f);
    ("file_extension", JStr (file_extension f));
    ("id", id f);
    ("_status", status f);
    ("type", type f) ].

Definition set_status (s : string) (f : t) : t :=
  {| download_url := download_url f;
     file_extension := file_extension f;
     id := id f;
     status := JStr s;
     type := type f |}.

End RecordingFiles.

Module ZoomRecording.

Record t : Type := mk {
  account_id : json;
  files : list RecordingFiles.t;
  id : json;
  password : json;
  size : json;
  start_time : json;
  topic : json;
  user : string
}.

(** The loop [for file in ...: self.append_recording_file(file)]. *)
Fixpoint append_recording_files (items : list json) (acc : list RecordingFiles.t)
  : result (list RecordingFiles.t) :=
  match items with
  | [] => Ok acc
  | file_json :: rest =>
      match RecordingFiles.init file_json with
      | Ok f => append_recording_files rest (acc ++ [f])
      | Raise e => Raise e
      end
  end.

(** [ZoomRecording(meeting_json, user)].  The signature has two
    required positional parameters: [user = None] stands for a call
    that passes only [meeting_json], which Python rejects with
    [TypeError] before the body runs. *)
Definition init (meeting_json : json) (user : option string) : result t :=
  match user with
  | None => Raise TypeError
  | Some u =>
      match meeting_json with
      | JObj d =>
          match py_iter (py_get d "recording_files" (JArr [])) with
          | Raise e => Raise e
          | Ok items =>
              match append_recording_files items [] with
              | Raise e => Raise e
              | Ok fs =>
                  Ok {| account_id := py_get d "account_id" JNull;
                        files := fs;
                        id := py_get d "uuid" JNull;
                        password := py_get d "recording_play_passcode" JNull;
                        size := py_get d "total_size" JNull;
                        start_time := py_get d "start_time" JNull;
                        topic := py_get d "topic" JNull;
                        user := u |}
              end
          end
      | _ => Raise AttributeError
      end
  end.

(** [ZoomRecording.to_json]. *)
Definition to_json (r : t) : dict :=
  [ ("account_id", account_id r);
    ("files", JArr (map (fun f => JObj (RecordingFiles.to_json f)) (files r)));
    ("id", id r);
    ("password", password r);
    ("size", size r);
    ("start_time", start_time r);
    ("topic", topic r);
    ("user", JStr (user r)) ].

End ZoomRecording.

(* ------------------------------------------------------------------ *)
(** * The ledger file and [update_meeting_json_file] (utils/file_io.py) *)
(* ------------------------------------------------------------------ *)

(** What is at the ledger path, seen through [json.load]: the text of a
    regular file either parses to a value or makes [json.load] raise
    [JSONDecodeError] (an empty or cut-off file does). *)
Inductive file_content : Type :=
| Absent
| IsDir
| Unparseable
| Parsed (doc : json).

(** What the disk does to one [open(path, 'w')] + [json.dump]:
    [open] itself can fail, leaving the file as it was; once [open]
    has succeeded the file has been truncated, and a failure during
    [json.dump] leaves the cut-off text behind. *)
Inductive write_fault : Type :=
| NoFault
| OpenFault
| DumpFault.

(** The [with open(file_path, 'w') as file: json.dump(data, file, ...)]
    block. *)
Definition write_json (fault : write_fault) (data : json) (old : file_content)
  : result unit * file_content :=
  match old with
  | IsDir => (Raise IsADirectoryError, IsDir)
  | _ =>
      match fault with
      | OpenFault => (Raise OSError, old)
      | DumpFault => (Raise OSError, Unparseable)
      | NoFault => (Ok tt, Parsed data)
      end
  end.

(** The key under which [json.dump] writes a dict key. *)
Definition dumped_key (k : json) : result string :=
  match k with
  | JStr s => Ok s
  | JNull => Ok "null"
  | JBool true => Ok "true"
  | JBool false => Ok "false"
  | JNum n => Ok (pretty n)
  | JArr _ | JObj _ => Raise TypeError
  end.

(** The in-memory part of [update_meeting_json_file]: [data] after the
    [if meeting_id in data: ... else: ...] statement, as [json.dump]
    followed by [json.load] would give it back.  A loaded dict has string
    keys only, so a [meeting_id] that is not a string is never [in data]
    and its entry is stored without merging; a list or dict as
    [meeting_id] is unhashable.  When [data] is not a dict, either the
    [in] test or the subscript raises [TypeError]. *)
Definition merge_entry (data : json) (meeting_id : json) (meeting_json : dict)
  : result json :=
  match data with
  | JObj d =>
      match meeting_id with
      | JStr k =>
          match dict_get k d with
          | Some (JObj entry) => Ok (JObj (dict_set k (JObj (dict_update entry meeting_json)) d))
          | Some _ => Raise AttributeError
          | None => Ok (JObj (dict_set k (JObj meeting_json) d))
          end
      | _ =>
          match dumped_key meeting_id with
          | Ok k => Ok (JObj (dict_set k (JObj meeting_json) d))
          | Raise e => Raise e
          end
      end
  | _ => Raise TypeError
  end.

(** [with open(path, 'r') as file: data = json.load(file)]. *)
Definition json_load (c : file_content) : result json :=
  match c with
  | Parsed doc => Ok doc
  | Absent => Raise FileNotFoundError
  | Unparseable => Raise JSONDecodeError
  | IsDir => Raise IsADirectoryError
  end.

(** The [try: ... except (FileNotFoundError, json.JSONDecodeError):
    data = {}] block. *)
Definition load_or_empty (c : file_content) : result json :=
  match json_load c with
  | Ok doc => Ok doc
  | Raise FileNotFoundError | Raise JSONDecodeError => Ok (JObj [])
  | Raise e => Raise e
  end.

(** [update_meeting_json_file(file_path, meeting_id, meeting_json)], as
    a transformer of the content at [file_path]. *)
Definition update_meeting_json_file (fault : write_fault)
    (meeting_id : json) (meeting_json : dict) (old : file_content)
  : result unit * file_content :=
  match load_or_empty old with
  | Raise e => (Raise e, old)
  | Ok data =>
      match merge_entry data meeting_id meeting_json with
      | Raise e => (Raise e, old)
      | Ok data' => write_json fault data' old
      end
  end.

(** The atomicity asked of the ledger rewrite, at one call: afterwards
    the file either holds the merged mapping or is what it was. *)
Definition rewrite_is_atomic (fault : write_fault)
    (meeting_id : json) (meeting_json : dict) (old : file_content) : Prop :=
  let new := snd (update_meeting_json_file fault meeting_id meeting_json old) in
  new = old \/
  exists data data',
    load_or_empty old = Ok data /\
    merge_entry data meeting_id meeting_json = Ok data' /\
    new = Parsed data'.

(* ------------------------------------------------------------------ *)
(** * [ZoomClient.list_recordings] (utils/zoom.py) *)
(* ------------------------------------------------------------------ *)

(** What one call of [get_recordings] does: [requests.get(...).json()]
    returns the body (the endpoint answers with a JSON object, error
    replies included) or the call raises. *)
Inductive reply : Type :=
| Reply (recordings_data : dict)
| Fails (e : exn).

(** The provider, as the listing sees it: the answer to the [i]-th call
    (from 0) made for the window [(from, to)] of user [email]. *)
Definition network : Type := string -> datetime * datetime -> nat -> reply.

Definition max_retries : nat := 3.

Inductive retry_outcome : Type :=
| Got (recordings_data : dict)
| Exhausted
| Propagates (e : exn).

(** [for _ in range(max_retries): try: ... break / except ConnectTimeout
    / except ReadTimeout / else: ...]; [attempts] iterations are left and
    [i] calls have been made. *)
Fixpoint retry (ask : nat -> reply) (attempts i : nat) : retry_outcome :=
  match attempts with
  | O => Exhausted
  | S attempts' =>
      match ask i with
      | Reply recordings_data => Got recordings_data
      | Fails ConnectTimeout | Fails ReadTimeout => retry ask attempts' (S i)
      | Fails e => Propagates e
      end
  end.

(** What [recordings.extend(recordings_data["meetings"])] appends; nothing
    when the key is missing. *)
Definition window_meetings (recordings_data : dict) : result (list json) :=
  match dict_get "meetings" recordings_data with
  | Some v => py_iter v
  | None => Ok []
  end.

(** The body of the [for start, end in self.per_delta(...)] loop, over
    the windows still to come, with [recordings] as accumulated so far. *)
Fixpoint list_windows (net : network) (email : string)
    (windows : list (datetime * datetime)) (recordings : list json)
  : result (list json) :=
  match windows with
  | [] => Ok recordings
  | w :: rest =>
      match retry (net email w) max_retries 0 with
      | Exhausted => Ok []
      | Propagates e => Raise e
      | Got recordings_data =>
          match window_meetings recordings_data with
          | Ok ms => list_windows net email rest (recordings ++ ms)
          | Raise e => Raise e
          end
      end
  end.

(** [list_recordings(email, start_date, end_date)]; [None] only if the
    window generator did not terminate. *)
Definition list_recordings (net : network) (email : string)
    (start_date end_date : datetime) : option (result (list json)) :=
  match per_delta start_date end_date (days 30) with
  | Some windows => Some (list_windows net email windows [])
  | None => None
  end.



Definition is_timeout (r : reply) : bool :=
  match r with
  | Fails ConnectTimeout | Fails ReadTimeout => true
  | _ => false
  end.





(* ------------------------------------------------------------------ *)
(** * [format_filename] (zoom-recording-cloud-backup.py) *)
(* ------------------------------------------------------------------ *)

(** The double-quote character. *)
Definition dquote : ascii := ascii_of_nat 34.

(** The character class of [invalid_chars_pattern]: the double quote,
    the characters [<>:/\|?*] and the control characters 0x00-0x1F. *)
Definition invalid_char (c : ascii) : bool :=
  (char_in c (String dquote "<>:/\|?*") || Nat.leb (nat_of_ascii c) 31)%bool.


(** A template of [str.format], already split into literal text and
    replacement fields [{name}]. *)
Inductive piece : Type :=
| Lit (text : string)
| Field (name : string).

Definition template : Type := list piece.

(** [tpl.format] applied to the keyword arguments [env]: the first field
    that [env] does not bind raises [KeyError]. *)
Fixpoint format (tpl : template) (env : list (string * string)) : result string :=
  match tpl with
  | [] => Ok ""
  | Lit text :: rest =>
      match format rest env with
      | Ok s => Ok (text +:+ s)
      | Raise e => Raise e
      end
  | Field name :: rest =>
      match List.find (fun kv => String.eqb name (fst kv)) env with
      | None => Raise (KeyError name)
      | Some kv =>
          match format rest env with
          | Ok s => Ok (snd kv +:+ s)
          | Raise e => Raise e
          end
      end
  end.

(** The values read from the configuration file that the modelled code
    uses. *)
Record Config : Type := {
  DOWNLOAD_DIRECTORY : string;
  MEETING_FILENAME : template;
  MEETING_FOLDER : template;
  SHAREPOINT_BASE_DIR_PATH : string;
  SHAREPOINT_DRIVE_ID : string;
  RECORDING_START_DATE : datetime;
  RECORDING_END_DATE : datetime
}.

(** Library functions that the program calls and this development does
    not define. *)
Record Library : Type := {
  (** [parser.parse(s).replace(tzinfo=utc).astimezone(MEETING_TIMEZONE)]
      followed by [strftime] with ["%Y"], ["%m"] and ["%d"]: the year,
      month and day as text, or the parser's exception. *)
  meeting_date : string -> result (string * string * string);
  (** [str()] of a list or a dict. *)
  container_str : json -> string;
  (** [str()] of the locals of [format_filename] that are objects
      ([params], [recording], [meeting_time_utc], [meeting_time_local]),
      by name. *)
  object_str : string -> string;
  (** [pathvalidate.sanitize_filepath] and [sanitize_filename]. *)
  sanitize_filepath : string -> string;
  sanitize_filename : string -> string
}.

(** What a replacement field shows for a JSON value. *)
Definition py_str (lib : Library) (v : json) : string :=
  match v with
  | JStr s => s
  | JNull => "None"
  | JBool true => "True"
  | JBool false => "False"
  | JNum n => pretty n
  | JArr _ | JObj _ => container_str lib v
  end.

(** The dict [params] built in [main]. *)
Record Params : Type := {
  p_file_extension : string;
  p_recording : ZoomRecording.t;
  p_recording_id : json;
  p_recording_type : json
}.

(** The source text of [invalid_chars_pattern] (a raw string). *)
Definition invalid_chars_pattern : string :=
  "[<>:" +:+ String dquote "/\\|?*\x00-\x1F]".

(** [regex.sub(invalid_chars_pattern, '', topic).replace(" ", "_")]. *)
Definition clean_topic (topic : string) : string :=
  replace_char " " "_" (filter_string (fun c => negb (invalid_char c)) topic).

(** [recording_type.replace("_", " ").title()]. *)
Definition rec_type_of (recording_type : string) : string :=
  title (replace_char "_" " " recording_type).

(** The locals of [format_filename] when [MEETING_FILENAME.format] runs,
    each with the text a replacement field shows for it. *)
Definition format_locals (lib : Library) (file_extension : string)
    (recording_id : json) (recording_type topic rec_type : string)
    (year month day : string) : list (string * string) :=
  [ ("params", object_str lib "params");
    ("file_extension", file_extension);
    ("recording", object_str lib "recording");
    ("recording_id", py_str lib recording_id);
    ("recording_type", recording_type);
    ("invalid_chars_pattern", invalid_chars_pattern);
    ("topic", topic);
    ("rec_type", rec_type);
    ("meeting_time_utc", object_str lib "meeting_time_utc");
    ("meeting_time_local", object_str lib "meeting_time_local");
    ("year", year);
    ("month", month);
    ("day", day);
    ("meeting_time", year +:+ "." +:+ month +:+ "." +:+ day) ].

(** [format_filename(params)].  [regex.sub] and [parser.parse] raise
    [TypeError] on a value that is not a string, and only [str] has
    [.replace]. *)
Definition format_filename (cfg : Config) (lib : Library) (params : Params)
  : result (string * string) :=
  let file_extension := lower (p_file_extension params) in
  let recording := p_recording params in
  match ZoomRecording.topic recording with
  | JStr raw_topic =>
      let topic := clean_topic raw_topic in
      match p_recording_type params with
      | JStr recording_type =>
          let rec_type := rec_type_of recording_type in
          match ZoomRecording.start_time recording with
          | JStr start_time =>
              match meeting_date lib start_time with
              | Raise e => Raise e
              | Ok (year, month, day) =>
                  let env := format_locals lib file_extension
                               (p_recording_id params) recording_type topic rec_type
                               year month day in
                  match format (MEETING_FILENAME cfg) env with
                  | Raise e => Raise e
                  | Ok filename =>
                      match format (MEETING_FOLDER cfg) (env ++ [("filename", filename)]) with
                      | Raise e => Raise e
                      | Ok folder => Ok (filename, folder)
                      end
                  end
              end
          | _ => Raise TypeError
          end
      | _ => Raise AttributeError
      end
  | _ => Raise TypeError
  end.




(** The default templates of the program. *)
Definition default_filename_template : template :=
  [Field "meeting_time"; Lit " - "; Field "topic"; Lit " - "; Field "rec_type";
   Lit " - "; Field "recording_id"; Lit "."; Field "file_extension"].
Definition default_folder_template : template :=
  [Field "topic"; Lit " - "; Field "meeting_time"].

Definition example_config : Config :=
  {| DOWNLOAD_DIRECTORY := "downloads";
     MEETING_FILENAME := default_filename_template;
     MEETING_FOLDER := default_folder_template;
     SHAREPOINT_BASE_DIR_PATH := "root:/backup";
     SHAREPOINT_DRIVE_ID := "drive-1";
     RECORDING_START_DATE := 0;
     RECORDING_END_DATE := days 45 |}.

(** A stand-in for the libraries in the worked examples: every meeting
    is on 2025-03-14, paths are already sanitary. *)
Definition example_library : Library :=
  {| meeting_date := fun _ => Ok ("2025", "03", "14");
     container_str := fun _ => "[...]";
     object_str := fun name => "<" +:+ name +:+ ">";
     sanitize_filepath := fun p => p;
     sanitize_filename := fun p => p |}.

Definition example_recording (files : list RecordingFiles.t) : ZoomRecording.t :=
  {| ZoomRecording.account_id := JStr "acct";
     ZoomRecording.files := files;
     ZoomRecording.id := JStr "m-1";
     ZoomRecording.password := JStr "pw";
     ZoomRecording.size := JNum 1000;
     ZoomRecording.start_time := JStr "2025-03-14T10:00:00Z";
     ZoomRecording.topic := JStr "Weekly: sync?";
     ZoomRecording.user := "user@example.com" |}.

(* ------------------------------------------------------------------ *)
(** * The world of a run, and a monad for code with effects *)
(* ------------------------------------------------------------------ *)

(** Effects, in the order performed.  A [print] is recorded by the
    source text of its argument; values are not interpolated. *)
Inductive event : Type :=
| EvPrint (text : string)
| EvMakedirs (path : string)
| EvHttpGet (url : string)
| EvCreateUploadSession (drive_id remote_file_path : string)
| EvUploadTask (local_file_path : string) (max_chunk_size : Z)
| EvUpdateLedger (meeting_id : json) (entry : dict)
| EvRemove (path : string).

(** The state that [main] works on: the ledger file
    ([COMPLETED_MEETING_RECORD]), the files present under the download
    directory, what the disk will do at each coming write of the ledger
    (no fault once the list is used up), the effects so far, the three
    statistic variables, and the [RecordingFiles] object that the loop
    variable [file] refers to. *)
Record State : Type := mkState {
  ledger : file_content;
  staged : gset string;
  write_faults : list write_fault;
  events : list event;
  total_recording_size : Z;
  completed_recordings : Z;
  failed_files : Z;
  file : RecordingFiles.t
}.

Definition M (A : Type) : Type := State -> result A * State.

Definition ret {A : Type} (a : A) : M A := fun s => (Ok a, s).

Definition bind {A B : Type} (m : M A) (k : A -> M B) : M B :=
  fun s =>
    match m s with
    | (Ok a, s') => k a s'
    | (Raise e, s') => (Raise e, s')
    end.

Definition raise {A : Type} (e : exn) : M A := fun s => (Raise e, s).

Definition lift {A : Type} (r : result A) : M A := fun s => (r, s).

(** [try: body / except Exception as e: handler]; the effects of [body]
    up to the exception stay. *)
Definition try_except {A : Type} (body : M A) (handler : exn -> M A) : M A :=
  fun s =>
    match body s with
    | (Ok a, s') => (Ok a, s')
    | (Raise e, s') => handler e s'
    end.

(** [try: body / except APIError as ex: handler]. *)
Definition try_except_APIError {A : Type} (body : M A) (handler : Z -> M A) : M A :=
  try_except body
    (fun e => match e with APIError code => handler code | _ => raise e end).

Notation "'let!' x := m 'in' k" := (bind m (fun x => k))
  (at level 10, x name, m at level 100, k at level 200).
Notation "'do!' m 'in' k" := (bind m (fun _ => k))
  (at level 10, m at level 100, k at level 200).

Definition emit (ev : event) : M unit :=
  fun s => (Ok tt,
            mkState (ledger s) (staged s) (write_faults s) (events s ++ [ev])
                    (total_recording_size s) (completed_recordings s)
                    (failed_files s) (file s)).

Definition print (text : string) : M unit := emit (EvPrint text).

Definition get_file : M RecordingFiles.t := fun s => (Ok (file s), s).

(** [file.status = status]. *)
Definition set_file_status (status : string) : M unit :=
  fun s => (Ok tt,
            mkState (ledger s) (staged s) (write_faults s) (events s)
                    (total_recording_size s) (completed_recordings s)
                    (failed_files s) (RecordingFiles.set_status status (file s))).

(** [failed_files += 1]. *)
Definition incr_failed_files : M unit :=
  fun s => (Ok tt,
            mkState (ledger s) (staged s) (write_faults s) (events s)
                    (total_recording_size s) (completed_recordings s)
                    (failed_files s + 1) (file s)).

(** [completed_recordings += 1]. *)
Definition incr_completed_recordings : M unit :=
  fun s => (Ok tt,
            mkState (ledger s) (staged s) (write_faults s) (events s)
                    (total_recording_size s) (completed_recordings s + 1)
                    (failed_files s) (file s)).

(** [total_recording_size += recording.size]: [int + int] ([bool] is an
    [int]); any other operand raises [TypeError]. *)
Definition add_total_recording_size (size : json) : M unit :=
  fun s =>
    let add n := (Ok tt,
                  mkState (ledger s) (staged s) (write_faults s) (events s)
                          (total_recording_size s + n) (completed_recordings s)
                          (failed_files s) (file s)) in
    match size with
    | JNum n => add n
    | JBool true => add 1
    | JBool false => add 0
    | _ => (Raise TypeError, s)
    end.

(** A file appears at [path] ([open(path, "wb")]). *)
Definition create_file (path : string) : M unit :=
  fun s => (Ok tt,
            mkState (ledger s) ({[path]} ∪ staged s) (write_faults s) (events s)
                    (total_recording_size s) (completed_recordings s)
                    (failed_files s) (file s)).

(** [os.remove(path)]. *)
Definition os_remove (path : string) : M unit :=
  fun s =>
    let s' := mkState (ledger s) (staged s) (write_faults s) (events s ++ [EvRemove path])
                      (total_recording_size s) (completed_recordings s)
                      (failed_files s) (file s) in
    if bool_decide (path ∈ staged s) then
      (Ok tt,
       mkState (ledger s') (staged s' ∖ {[path]}) (write_faults s') (events s')
               (total_recording_size s') (completed_recordings s')
               (failed_files s') (file s'))
    else (Raise FileNotFoundError, s').

(** A write of the ledger file through [step], under the next disk
    fault. *)
Definition on_ledger (step : write_fault -> file_content -> result unit * file_content)
  : M unit :=
  fun s =>
    let fault := match write_faults s with [] => NoFault | f :: _ => f end in
    let '(r, c) := step fault (ledger s) in
    (r,
     mkState c (staged s) (List.tl (write_faults s)) (events s)
             (total_recording_size s) (completed_recordings s)
             (failed_files s) (file s)).

(** [update_meeting_json_file(COMPLETED_MEETING_RECORD, recording.id,
    file.to_json())]. *)
Definition update_ledger (recording : ZoomRecording.t) : M unit :=
  let! f := get_file in
  do! emit (EvUpdateLedger (ZoomRecording.id recording) (RecordingFiles.to_json f)) in
  on_ledger (fun fault =>
               update_meeting_json_file fault (ZoomRecording.id recording)
                                        (RecordingFiles.to_json f)).

(* ------------------------------------------------------------------ *)
(** * [download_recording] (zoom-recording-cloud-backup.py) *)
(* ------------------------------------------------------------------ *)

(** What happens to one download: the first library call that raises,
    if any. *)
Inductive download_behaviour : Type :=
| DlMakedirsRaises (e : exn)     (* os.makedirs *)
| DlGetRaises (e : exn)          (* requests.get *)
| DlContentLengthRaises          (* int(...) of the content-length header *)
| DlOpenRaises (e : exn)         (* open(full_filename, "wb") *)
| DlStreamRaises (e : exn)       (* response.iter_content / fd.write *)
| DlCompletes.

(** [download_recording(download_url, email, filename, folder_name)]
    ([os.sep] is the slash).  Exceptions of [open] and of the streaming
    loop are caught by [except Exception] and turned into [False]; the
    calls before the [try] are unprotected. *)
Definition download_recording (cfg : Config) (lib : Library) (io : download_behaviour)
    (download_url email filename folder_name : string) : M bool :=
  let dl_dir := DOWNLOAD_DIRECTORY cfg +:+ "/" +:+ folder_name in
  let sanitized_download_dir := sanitize_filepath lib dl_dir in
  let sanitized_filename := sanitize_filename lib filename in
  let full_filename := sanitized_download_dir +:+ "/" +:+ sanitized_filename in
  do! emit (EvMakedirs sanitized_download_dir) in
  do! match io with DlMakedirsRaises e => raise e | _ => ret tt end in
  do! emit (EvHttpGet download_url) in
  do! match io with DlGetRaises e => raise e | _ => ret tt end in
  do! match io with
      | DlContentLengthRaises => raise (OtherException "ValueError")
      | _ => ret tt
      end in
  try_except
    (do! match io with DlOpenRaises e => raise e | _ => create_file full_filename end in
     do! match io with DlStreamRaises e => raise e | _ => ret tt end in
     ret true)
    (fun e =>
       do! print "### The video recording with filename '{filename}' for user with email '{email}' could not be downloaded because '{e}'" in
       ret false).

(* ------------------------------------------------------------------ *)
(** * [upload_large_file] (utils/msgraph_utils.py) *)
(* ------------------------------------------------------------------ *)

(** What the remote drive does to one upload: whether creating the
    upload session raises, the size of the local file, whether
    [task.upload] raises. *)
Record upload_behaviour : Type := {
  session_raises : option exn;
  total_length : Z;
  task_raises : option exn
}.

(** [max_chunk_size] as passed to [LargeFileUploadTask]. *)
Definition chunk_size (total_length : Z) : Z :=
  let max_chunk_size := 5 * 1024 * 1024 in
  if total_length <? max_chunk_size then total_length - 1 else max_chunk_size.

(** [open(local_file_path, 'rb')]. *)
Definition open_rb (path : string) : M unit :=
  fun s =>
    if bool_decide (path ∈ staged s) then (Ok tt, s) else (Raise FileNotFoundError, s).

(** [upload_large_file(client, drive_id, local_file_path,
    remote_file_path)].  Every [APIError] is caught and printed; after a
    failed session creation the name [upload_session] is unbound, and
    reading it raises [UnboundLocalError]. *)
Definition upload_large_file (io : upload_behaviour)
    (drive_id local_file_path remote_file_path : string) : M unit :=
  try_except_APIError
    (do! open_rb local_file_path in
     let! upload_session_bound :=
       try_except_APIError
         (do! emit (EvCreateUploadSession drive_id remote_file_path) in
          match session_raises io with
          | Some e => raise e
          | None => ret true
          end)
         (fun _ => do! print "Error creating upload session: {ex}" in ret false) in
     let max_chunk_size := chunk_size (total_length io) in
     do! (if upload_session_bound : bool then ret tt else raise UnboundLocalError) in
     try_except_APIError
       (do! emit (EvUploadTask local_file_path max_chunk_size) in
        do! match task_raises io with Some e => raise e | None => ret tt end in
        print "Upload complete")
       (fun _ => print "Error uploading: {ex.message} - {ex.response_status_code}"))
    (fun _ => print "Error: {e}").

(* ------------------------------------------------------------------ *)
(** * [main]: the per-file state machine *)
(* ------------------------------------------------------------------ *)

(** What the outside world does while one file is processed. *)
Record Behaviour : Type := {
  access_token : string;
  downloading : download_behaviour;
  uploading : upload_behaviour
}.

(** [ZoomClient.get_download_urls(url, password)]. *)
Definition get_download_urls (lib : Library) (token : string) (url password : json)
  : string :=
  py_str lib url +:+ "?access_token=" +:+ token
    +:+ "&playback_access_token=" +:+ py_str lib password.

(** [os.path.basename]. *)
Fixpoint basename (path : string) : string :=
  match path with
  | EmptyString => EmptyString
  | String c rest =>
      if char_in "/" rest then basename rest
      else if Ascii.eqb c "/" then rest else path
  end.

(** The block [if file.status == "pending": ...].  The result is [false]
    when the block ends in [continue]. *)
Definition handle_pending (cfg : Config) (lib : Library) (io : Behaviour)
    (dry_run : bool) (recording : ZoomRecording.t)
    (filename folder_name : string) : M bool :=
  let! f := get_file in
  let download_url_with_auth :=
    get_download_urls lib (access_token io)
      (RecordingFiles.download_url f) (ZoomRecording.password recording) in
  do! print "    > Downloading {filename}" in
  try_except
    (if dry_run then
       do! print "file.download_url, recording.user, filename, folder_name" in
       do! print "{download_url_with_auth}, {recording.user}, {filename}, {folder_name}" in
       ret true
     else
       let! downloaded :=
         download_recording cfg lib (downloading io) download_url_with_auth
           (ZoomRecording.user recording) filename folder_name in
       if downloaded : bool then
         do! set_file_status "downloaded" in
         do! update_ledger recording in
         ret true
       else ret true)
    (fun e =>
       do! print "### Failed to process file {file.type} for recording {file.id} of meeting {recording.id} due to error: {str(e)}" in
       do! set_file_status "download failed" in
       do! update_ledger recording in
       do! incr_failed_files in
       ret false).

(** The block [if file.status == "downloaded": ...], a
    [try / except Exception / else].  The result is [false] when the
    block ends in [continue]. *)
Definition handle_downloaded (cfg : Config) (io : Behaviour)
    (dry_run : bool) (recording : ZoomRecording.t)
    (folder_name local_file_path : string) : M bool :=
  let remote_file_path :=
    SHAREPOINT_BASE_DIR_PATH cfg +:+ "/" +:+ ZoomRecording.user recording +:+ "/"
      +:+ folder_name +:+ "/" +:+ basename local_file_path +:+ ":" in
  let! no_exception :=
    try_except
      (do! (if dry_run then print "remote file path is {remote_file_path}"
            else
              do! print "    > Uploading to {folder_name}" in
              upload_large_file (uploading io) (SHAREPOINT_DRIVE_ID cfg)
                                local_file_path remote_file_path) in
       ret true)
      (fun e =>
         do! print "Exception: {e}" in
         do! print "failed to upload file {file.type}.{file.file_extension}\nContinuing..." in
         do! set_file_status "upload failed" in
         do! incr_failed_files in
         do! update_ledger recording in
         ret false) in
  if no_exception : bool then
    do! set_file_status "uploaded" in
    do! incr_completed_recordings in
    do! add_total_recording_size (ZoomRecording.size recording) in
    do! update_ledger recording in
    do! os_remove local_file_path in
    ret true
  else ret false.

(** The body of [for file in recording.files]. *)
Definition process_file (cfg : Config) (lib : Library) (io : Behaviour)
    (dry_run : bool) (recording : ZoomRecording.t) : M unit :=
  let! f := get_file in
  do! print "\nprocessing file {file.type}.{file.file_extension}" in
  let params :=
    {| p_file_extension := RecordingFiles.file_extension f;
       p_recording := recording;
       p_recording_id := RecordingFiles.id f;
       p_recording_type := RecordingFiles.type f |} in
  let! names := lift (format_filename cfg lib params) in
  let filename := fst names in
  let folder_name := snd names in
  let sanitized_download_dir :=
    sanitize_filepath lib (DOWNLOAD_DIRECTORY cfg +:+ "/" +:+ folder_name) in
  let sanitized_filename := sanitize_filename lib filename in
  let local_file_path := sanitized_download_dir +:+ "/" +:+ sanitized_filename in
  let! go_on :=
    (if eq_str (RecordingFiles.status f) "pending"
     then handle_pending cfg lib io dry_run recording filename folder_name
     else ret true) in
  if go_on : bool then
    let! f' := get_file in
    let! go_on' :=
      (if eq_str (RecordingFiles.status f') "downloaded"
       then handle_downloaded cfg io dry_run recording folder_name local_file_path
       else ret true) in
    if go_on' : bool then
      print "Finished processing file {recording.topic}.{file.file_extension}"
    else ret tt
  else ret tt.

(* ------------------------------------------------------------------ *)
(** * [get_recordings_for_users], [main] and the [__main__] block *)
(* ------------------------------------------------------------------ *)

(** [for meeting in recording_json: recordings.append(ZoomRecording(meeting, user))]. *)
Fixpoint append_recordings (meetings : list json) (user : string)
    (recordings : list ZoomRecording.t) : result (list ZoomRecording.t) :=
  match meetings with
  | [] => Ok recordings
  | meeting :: rest =>
      match ZoomRecording.init meeting (Some user) with
      | Ok r => append_recordings rest user (recordings ++ [r])
      | Raise e => Raise e
      end
  end.

(** [get_recordings_for_users(users, zoom_client)] (the [load_from_file]
    branch is never taken by [main]); console output is not recorded
    here. *)
Fixpoint get_recordings_for_users (cfg : Config) (net : network)
    (users : list string) (recordings : list ZoomRecording.t)
  : option (result (list ZoomRecording.t)) :=
  match users with
  | [] => Some (Ok recordings)
  | user :: rest =>
      match list_recordings net user (RECORDING_START_DATE cfg) (RECORDING_END_DATE cfg) with
      | None => None
      | Some (Raise e) => Some (Raise e)
      | Some (Ok recording_json) =>
          match append_recordings recording_json user recordings with
          | Ok recordings' => get_recordings_for_users cfg net rest recordings'
          | Raise e => Some (Raise e)
          end
      end
  end.

(** [if not COMPLETED_MEETING_RECORD.exists(): ... json.dump({}, ...)]. *)
Definition create_ledger_if_absent : M unit :=
  fun s =>
    match ledger s with
    | Absent => on_ledger (fun fault => write_json fault (JObj [])) s
    | _ => (Ok tt, s)
    end.

(** [len(data)]. *)
Definition py_len (v : json) : result nat :=
  match v with
  | JObj fields => Ok (List.length fields)
  | JArr items => Ok (List.length items)
  | JStr s => Ok (String.length s)
  | JNull | JBool _ | JNum _ => Raise TypeError
  end.

(** [for meeting in data: recordings.append(ZoomRecording(meeting))]:
    the constructor is called with one argument. *)
Fixpoint rebuild_from_ledger (items : list json) (recordings : list ZoomRecording.t)
  : result (list ZoomRecording.t) :=
  match items with
  | [] => Ok recordings
  | meeting :: rest =>
      match ZoomRecording.init meeting None with
      | Ok r => rebuild_from_ledger rest (recordings ++ [r])
      | Raise e => Raise e
      end
  end.

(** The block [if not recordings: ...] of [main], entered with an empty
    [recordings]: [inl code] when [main] returns [code] there, [inr] the
    recordings to go on with otherwise. *)
Definition recordings_from_ledger : M (Z + list ZoomRecording.t) :=
  fun s =>
    match ledger s with
    | Parsed _ | Unparseable =>
        (do! print "no recordings retrieved from zoom API" in
         do! print "checking for previously retrieved recordings" in
         let! data := lift (json_load (ledger s)) in
         let! n := lift (py_len data) in
         if Nat.eqb n 0 then
           do! print "No previously retrieved recordings found" in
           do! print "Exiting..." in
           ret (inl 1)
         else
           let! items := lift (py_iter data) in
           let! recordings := lift (rebuild_from_ledger items []) in
           ret (inr recordings)) s
    | Absent | IsDir =>
        (do! print "no recordings loaded, and upload list file found!" in
         do! print "Exiting..." in
         ret (inl 1)) s
    end.

Definition set_file (f : RecordingFiles.t) : M unit :=
  fun s => (Ok tt,
            mkState (ledger s) (staged s) (write_faults s) (events s)
                    (total_recording_size s) (completed_recordings s)
                    (failed_files s) f).

(** [for file in recording.files: ...]; [io] tells what the outside
    world does for each file.  The result lists the file objects as the
    loop leaves them. *)
Fixpoint process_files (cfg : Config) (lib : Library)
    (io : RecordingFiles.t -> Behaviour) (dry_run : bool)
    (recording : ZoomRecording.t) (files : list RecordingFiles.t)
  : M (list RecordingFiles.t) :=
  match files with
  | [] => ret []
  | f :: rest =>
      do! set_file f in
      do! process_file cfg lib (io f) dry_run recording in
      let! f' := get_file in
      let! rest' := process_files cfg lib io dry_run recording rest in
      ret (f' :: rest')
  end.

(** [for recording in recordings: ...]. *)
Fixpoint process_recordings (cfg : Config) (lib : Library)
    (io : RecordingFiles.t -> Behaviour) (dry_run : bool) (users : list string)
    (recordings : list ZoomRecording.t) : M unit :=
  match recordings with
  | [] => ret tt
  | recording :: rest =>
      do! print "\n============== Processing Recording ================" in
      do! (if existsb (String.eqb (ZoomRecording.user recording)) users then
             do! print "{len(recording.files)} files found for this recording" in
             let! _ := process_files cfg lib io dry_run recording
                         (ZoomRecording.files recording) in
             ret tt
           else
             print "User {recording.user} not part of supplied userlist. skipping...") in
      process_recordings cfg lib io dry_run users rest
  end.

(** [main], from the retrieval of the recordings to the summary (the
    removal of empty folders is left out: directories are not part of
    the state).  [listed] is what [get_recordings_for_users] returned.
    The value is what [main] returns: [Some 1] for [return 1], [None]
    for falling off the end. *)
Definition main (cfg : Config) (lib : Library)
    (io : RecordingFiles.t -> Behaviour) (dry_run : bool) (users : list string)
    (listed : result (list ZoomRecording.t)) : M (option Z) :=
  do! print "requesting recordings for each user" in
  let! recordings := lift listed in
  do! create_ledger_if_absent in
  let! found :=
    match recordings with
    | [] => recordings_from_ledger
    | _ :: _ => ret (inr recordings)
    end in
  match found with
  | inl code => ret (Some code)
  | inr recordings' =>
      do! process_recordings cfg lib io dry_run users recordings' in
      do! print "successfully uploaded: {completed_recordings} recordings" in
      do! print "failed to upload: {failed_files} files" in
      do! print "total size of uploaded files: {convert_size(total_recording_size)}" in
      do! print "cleaning up empty folders..." in
      ret None
  end.

(** The [__main__] block is [asyncio.run(main())]: the value that
    [main] returns is not used, so the interpreter exits with status 0
    whenever [main] returns and with status 1 when an exception leaves
    it. *)
Definition exit_status {A : Type} (outcome : result A) : Z :=
  match outcome with
  | Ok _ => 0
  | Raise _ => 1
  end.

(** Initial state of a run. *)
Definition initial_state (ledger0 : file_content) (staged0 : gset string)
    (f : RecordingFiles.t) : State :=
  mkState ledger0 staged0 [] [] 0 0 0 f.

(** A file object as built from a provider file entry, with the given
    status. *)
Definition example_file (status : string) : RecordingFiles.t :=
  {| RecordingFiles.download_url := JStr "https://zoom.example/rec/f-1";
     RecordingFiles.file_extension := "mp4";
     RecordingFiles.id := JStr "f-1";
     RecordingFiles.status := JStr status;
     RecordingFiles.type := JStr "audio_only" |}.

(** Where [example_file] is staged under [example_config]. *)
Definition example_path : string :=
  "downloads/Weekly_sync - 2025.03.14/2025.03.14 - Weekly_sync - Audio Only - f-1.mp4".

Definition example_behaviour (dl : download_behaviour) (task : option exn) : Behaviour :=
  {| access_token := "token";
     downloading := dl;
     uploading := {| session_raises := None; total_length := 7000000; task_raises := task |} |}.

(** A provider that answers every listing call with no meetings. *)
Definition net_no_meetings : network :=
  fun _ _ _ => Reply [("meetings", JArr []); ("total_records", JNum 0)].

(** A ledger with one entry, as an earlier run leaves it. *)
Definition example_ledger : file_content :=
  Parsed (JObj [("m-1", JObj (RecordingFiles.to_json (example_file "downloaded")))]).

(** One file of [example_recording] through [process_file], starting
    with the file staged (or not) and an empty ledger. *)
Definition example_run (dry_run : bool) (dl : download_behaviour) (task : option exn)
    (status : string) (is_staged : bool) : result unit * State :=
  process_file example_config example_library (example_behaviour dl task) dry_run
    (example_recording [])
    (initial_state (Parsed (JObj []))
                   (if is_staged then {[example_path]} else ∅)
                   (example_file status)).

Definition is_ledger_update (ev : event) : bool :=
  match ev with EvUpdateLedger _ _ => true | _ => false end.

Definition is_transfer (ev : event) : bool :=
  match ev with
  | EvHttpGet _ | EvCreateUploadSession _ _ | EvUploadTask _ _ => true
  | _ => false
  end.

Definition is_remove (ev : event) : bool :=
  match ev with EvRemove _ => true | _ => false end.

Definition is_print (ev : event) : bool :=
  match ev with EvPrint _ => true | _ => false end.

(** Unfolds the monad operations in a goal. *)
Ltac run_monad :=
  unfold bind, ret, raise, lift, print, emit, try_except_APIError, try_except,
    get_file, set_file_status, incr_failed_files, incr_completed_recordings,
    open_rb; cbn.


(* ------------------------------------------------------------------ *)
(** * [append_to_json_file] (utils/file_io.py) *)
(* ------------------------------------------------------------------ *)

(** [append_to_json_file(field_name, file_path, json_dict)].  The read
    is not protected; [data[field_name]] needs a dict and an existing
    key, [.append] a list. *)
Definition append_to_json_file (fault : write_fault)
    (field_name : string) (json_dict : json) (old : file_content)
  : result unit * file_content :=
  match json_load old with
  | Raise e => (Raise e, old)
  | Ok (JObj data) =>
      match dict_get field_name data with
      | None => (Raise (KeyError field_name), old)
      | Some (JArr items) =>
          write_json fault
            (JObj (dict_set field_name (JArr (items ++ [json_dict])) data)) old
      | Some _ => (Raise AttributeError, old)
      end
  | Ok _ => (Raise TypeError, old)
  end.

(* ------------------------------------------------------------------ *)
(** * Relating the state before and after a computation *)
(* ------------------------------------------------------------------ *)

(** [m] takes every state to one related to it by [R], whether it
    returns or raises. *)
Definition preserves {A : Type} (R : State -> State -> Prop) (m : M A) : Prop :=
  forall s, R s (snd (m s)).

(** Nothing but the record of effects differs. *)
Definition same_but_events (s s' : State) : Prop :=
  ledger s' = ledger s /\ staged s' = staged s /\ write_faults s' = write_faults s /\
  total_recording_size s' = total_recording_size s /\
  completed_recordings s' = completed_recordings s /\
  failed_files s' = failed_files s /\ file s' = file s.

(** The ledger, the pending disk faults, the counters and the file
    object are the same (staged files and effects may differ). *)
Definition same_bookkeeping (s s' : State) : Prop :=
  ledger s' = ledger s /\ write_faults s' = write_faults s /\
  total_recording_size s' = total_recording_size s /\
  completed_recordings s' = completed_recordings s /\
  failed_files s' = failed_files s /\ file s' = file s.

(** The file object is the same up to its status. *)
Definition same_file_identity (s s' : State) : Prop :=
  RecordingFiles.download_url (file s') = RecordingFiles.download_url (file s) /\
  RecordingFiles.file_extension (file s') = RecordingFiles.file_extension (file s) /\
  RecordingFiles.id (file s') = RecordingFiles.id (file s) /\
  RecordingFiles.type (file s') = RecordingFiles.type (file s).

(** The two counters of files have not gone down. *)
Definition counters_grow (s s' : State) : Prop :=
  failed_files s <= failed_files s' /\ completed_recordings s <= completed_recordings s'.

(** No staged file other than [path] has disappeared. *)
Definition keeps_staged_except (path : string) (s s' : State) : Prop :=
  forall p, p <> path -> p ∈ staged s -> p ∈ staged s'.

(** The effects are those of before, followed by effects that are
    neither a download nor an upload call. *)
Definition no_new_transfer (s s' : State) : Prop :=
  exists evs, events s' = events s ++ evs /\ existsb is_transfer evs = false.


(** The staged files of before are all still there. *)
Definition staged_grows (s s' : State) : Prop :=
  forall p, p ∈ staged s -> p ∈ staged s'.

(** Where [main] stages the file with the given derived names. *)
Definition local_path_of (cfg : Config) (lib : Library) (names : string * string) : string :=
  sanitize_filepath lib (DOWNLOAD_DIRECTORY cfg +:+ "/" +:+ snd names)
    +:+ "/" +:+ sanitize_filename lib (fst names).

(** The [params] that [main] passes to [format_filename] for a file. *)
Definition params_of (recording : ZoomRecording.t) (f : RecordingFiles.t) : Params :=
  {| p_file_extension := RecordingFiles.file_extension f;
     p_recording := recording;
     p_recording_id := RecordingFiles.id f;
     p_recording_type := RecordingFiles.type f |}.

(** The part of [process_file] that follows the call of
    [format_filename], for the file object [f] read at the start and the
    derived [names]; [process_file_after_names] relates the two. *)
Definition process_named (cfg : Config) (lib : Library) (io : Behaviour)
    (dry_run : bool) (recording : ZoomRecording.t)
    (f : RecordingFiles.t) (names : string * string) : M unit :=
  let! go_on :=
    (if eq_str (RecordingFiles.status f) "pending"
     then handle_pending cfg lib io dry_run recording (fst names) (snd names)
     else ret true) in
  if go_on : bool then
    let! f' := get_file in
    let! go_on' :=
      (if eq_str (RecordingFiles.status f') "downloaded"
       then handle_downloaded cfg io dry_run recording (snd names)
              (local_path_of cfg lib names)
       else ret true) in
    if go_on' : bool then
      print "Finished processing file {recording.topic}.{file.file_extension}"
    else ret tt
  else ret tt.

(** A provider with one meeting, of two files, in the first window. *)
Definition net_one_meeting : network :=
  fun _ w _ =>
    if fst w =? 0 then
      Reply [("meetings",
              JArr [JObj [("uuid", JStr "m-1"); ("topic", JStr "Weekly");
                          ("recording_files",
                           JArr [JObj [("id", JStr "f-1"); ("file_extension", JStr "MP4")];
                                 JObj [("id", JStr "f-2"); ("file_extension", JStr "M4A")]])]])]
    else Reply [("meetings", JArr [])].

(* ------------------------------------------------------------------ *)
(** * [remove_empty_subfolders] (utils/file_io.py) *)
(* ------------------------------------------------------------------ *)

(** A path, as the list of its components from the root of the file
    system.  The file system under [path_abs] is given by the set of its
    directories (the root [path_abs] included) and the set of its
    files. *)
Definition path : Type := list string.

(** [q] is an entry of directory [w]: [w] followed by one name. *)
Definition is_child_of (q w : path) : bool :=
  (Nat.eqb (length q) (S (length w)) && bool_decide (take (length w) q = w))%bool.

(** [f] lies somewhere below directory [p]. *)
Definition proper_prefix (p f : path) : bool :=
  (Nat.ltb (length p) (length f) && bool_decide (take (length p) f = p))%bool.

(** [os.listdir(p)]. *)
Definition listdir (dirs files : gset path) (p : path) : list path :=
  filter (fun q => is_child_of q p) (elements dirs ++ elements files).

(** One iteration: [if len(os.listdir(path)) == 0: os.rmdir(path)]. *)
Definition rmdir_if_empty (files : gset path) (dirs : gset path) (p : path) : gset path :=
  match listdir dirs files p with
  | [] => dirs ∖ {[p]}
  | _ :: _ => dirs
  end.

(** [remove_empty_subfolders(path_abs)], as a transformer of the set of
    directories.  [walk] is the list of directory paths of
    [list(os.walk(path_abs))], computed by the library before the loop
    starts; the loop goes through it backwards. *)
Definition remove_empty_subfolders (walk : list path) (files dirs : gset path)
  : gset path :=
  fold_left (rmdir_if_empty files) (rev walk) dirs.

(** [os.walk] is top-down: no directory is listed before its parent. *)
Fixpoint top_down (walk : list path) : bool :=
  match walk with
  | [] => true
  | w :: rest => (forallb (fun q => negb (is_child_of w q)) rest && top_down rest)%bool
  end.

(** In a file system every directory between a listed directory and a
    file below it exists. *)
Definition ancestors_present (dirs files : gset path) : bool :=
  forallb
    (fun f =>
       forallb
         (fun p =>
            implb (proper_prefix p f)
                  (is_child_of f p || bool_decide (take (S (length p)) f ∈ dirs)))
         (elements dirs))
    (elements files).

(** Some file lies below [p]. *)
Definition has_file_below (files : gset path) (p : path) : bool :=
  existsb (proper_prefix p) (elements files).

(** Everything but the ledger file, the pending disk faults and the
    record of effects is the same. *)
Definition same_but_ledger (s s' : State) : Prop :=
  staged s' = staged s /\
  total_recording_size s' = total_recording_size s /\
  completed_recordings s' = completed_recordings s /\
  failed_files s' = failed_files s /\ file s' = file s.

(* ------------------------------------------------------------------ *)
(** * Theorems *)
(* ------------------------------------------------------------------ *)










(* ------------------------------------------------------------------ *)
(** ** [RecordingFiles.__init__] *)
(* ------------------------------------------------------------------ *)

(** Construction succeeds exactly on a dict whose ["file_extension"] is a
    string, and then stores the lower-cased extension. *)
Lemma RecordingFiles_init_ok_inv (file_json : json) (f : RecordingFiles.t) :
  RecordingFiles.init file_json = Ok f ->
  exists d ext,
    file_json = JObj d /\
    dict_get "file_extension" d = Some (JStr ext) /\
    RecordingFiles.file_extension f = lower ext.
Proof.
  destruct file_json as [| | | |?|d]; cbn; try discriminate.
  unfold py_get. destruct (dict_get "file_extension" d) as [[| | |ext| |]|] eqn:E;
    try discriminate.
  intros [= <-]. exists d, ext. auto.
Qed.

Lemma RecordingFiles_init_ok (d : dict) (ext : string) :
  dict_get "file_extension" d = Some (JStr ext) ->
  exists f, RecordingFiles.init (JObj d) = Ok f /\
            RecordingFiles.file_extension f = lower ext /\
            RecordingFiles.status f = py_get d "_status" (JStr "pending").
Proof.
  intros E. cbn. unfold py_get at 1. rewrite E. eexists; split; [reflexivity|]. auto.
Qed.

(** C10.  For every raw file object whose ["file_extension"] key is
    absent or bound to something that is not a string, constructing the
    [RecordingFiles] record raises (an [AttributeError], from calling
    [.lower()] on the value) instead of defaulting the field. *)
Theorem RecordingFiles_init_needs_file_extension (file_json : dict) :
  (forall ext, dict_get "file_extension" file_json <> Some (JStr ext)) ->
  RecordingFiles.init (JObj file_json) = Raise AttributeError.
Proof.
  intros H. cbn. unfold py_get at 1.
  destruct (dict_get "file_extension" file_json) as [[| | |ext| |]|] eqn:E;
    try reflexivity.
  exfalso. exact (H ext eq_refl).
Qed.

Lemma RecordingFiles_init_needs_file_extension_witness :
  RecordingFiles.init
    (JObj [("id", JStr "f-1"); ("download_url", JStr "https://zoom.example/f-1");
           ("recording_type", JStr "audio_only")])
  = Raise AttributeError.
Proof.
  apply RecordingFiles_init_needs_file_extension.
  intros ext. cbn. discriminate.
Defined.

(* ------------------------------------------------------------------ *)
(** ** Dict updates *)
(* ------------------------------------------------------------------ *)

Lemma dict_get_set (f k : string) (v : json) (d : dict) :
  dict_get f (dict_set k v d) = if String.eqb f k then Some v else dict_get f d.
Proof.
  induction d as [|[k' v'] d IH]; cbn.
  - destruct (String.eqb f k); reflexivity.
  - destruct (String.eqb_spec k k') as [->|Hk]; cbn.
    + destruct (String.eqb f k'); reflexivity.
    + rewrite IH. destruct (String.eqb_spec f k') as [->|Hf]; [|reflexivity].
      destruct (String.eqb_spec k' k); [congruence|reflexivity].
Qed.

















(* ------------------------------------------------------------------ *)
(** ** [update_meeting_json_file]: the ledger store *)
(* ------------------------------------------------------------------ *)




(** The rewrite is not atomic: a failure of [json.dump] after the file
    was opened for writing leaves neither the old ledger nor the merged
    one. *)
Lemma update_meeting_json_file_not_atomic :
  ~ rewrite_is_atomic DumpFault (JStr "m-2")
      [("id", JStr "f-9"); ("_status", JStr "downloaded")]
      (Parsed (JObj [("m-1", JObj [("id", JStr "f-1"); ("_status", JStr "uploaded")])])).
Proof.
  unfold rewrite_is_atomic. cbn. intros [H|(data & data' & _ & _ & H)]; discriminate H.
Qed.

(** C6 (amended).  [update_meeting_json_file] rewrites the ledger in
    place.  When nothing fails the file holds exactly the merged mapping
    afterwards.  When the merge itself raises, or the file cannot be
    opened for writing, the file is left as it was.  When the failure
    comes after the file was opened, the call raises and the file is left
    cut off and unparseable: neither the old ledger nor the merged one. *)
Theorem update_meeting_json_file_rewrite_outcomes
    (fault : write_fault) (meeting_id : json) (meeting_json : dict)
    (old : file_content) (data : json) :
  load_or_empty old = Ok data ->
  (forall data',
      merge_entry data meeting_id meeting_json = Ok data' ->
      update_meeting_json_file fault meeting_id meeting_json old =
      match fault with
      | NoFault => (Ok tt, Parsed data')
      | OpenFault => (Raise OSError, old)
      | DumpFault => (Raise OSError, Unparseable)
      end) /\
  (forall e,
      merge_entry data meeting_id meeting_json = Raise e ->
      update_meeting_json_file fault meeting_id meeting_json old = (Raise e, old)).
Proof.
  intros Hload. unfold update_meeting_json_file. rewrite Hload.
  assert (Hold : old <> IsDir) by (intros ->; discriminate Hload).
  split.
  - intros data' ->. destruct old, fault; cbn; congruence.
  - intros e ->. reflexivity.
Qed.

Lemma update_meeting_json_file_rewrite_outcomes_witness :
  update_meeting_json_file DumpFault (JStr "m-2") [("_status", JStr "downloaded")]
    (Parsed (JObj [("m-1", JObj [("_status", JStr "uploaded")])]))
  = (Raise OSError, Unparseable).
Proof.
  exact (proj1 (update_meeting_json_file_rewrite_outcomes DumpFault (JStr "m-2")
                  [("_status", JStr "downloaded")]
                  (Parsed (JObj [("m-1", JObj [("_status", JStr "uploaded")])]))
                  _ eq_refl) _ eq_refl).
Defined.

(* ------------------------------------------------------------------ *)
(** ** [list_recordings] *)
(* ------------------------------------------------------------------ *)

Section Listing.

Variable net : network.
Variable email : string.





End Listing.




(* ------------------------------------------------------------------ *)
(** ** [format_filename] *)
(* ------------------------------------------------------------------ *)

















(* ------------------------------------------------------------------ *)
(** ** [upload_large_file] and the upload branch of [main] *)
(* ------------------------------------------------------------------ *)

(** No [APIError] ever leaves [upload_large_file]: a failed chunk upload
    is printed and the function returns normally. *)
Lemma upload_large_file_never_raises_APIError
    (io : upload_behaviour) (drive_id local_file_path remote_file_path : string)
    (s : State) (code : Z) :
  fst (upload_large_file io drive_id local_file_path remote_file_path s)
  <> Raise (APIError code).
Proof.
  unfold upload_large_file. run_monad.
  destruct (bool_decide (local_file_path ∈ staged s)); cbn; [|discriminate].
  destruct (session_raises io) as [[]|]; cbn; try discriminate;
    destruct (task_raises io) as [[]|]; cbn; discriminate.
Qed.

Lemma upload_large_file_swallows_chunk_failure
    (io : upload_behaviour) (drive_id local_file_path remote_file_path : string)
    (s : State) (code : Z) :
  local_file_path ∈ staged s ->
  session_raises io = None ->
  task_raises io = Some (APIError code) ->
  fst (upload_large_file io drive_id local_file_path remote_file_path s) = Ok tt.
Proof.
  intros Hin Hs Ht. unfold upload_large_file. run_monad.
  rewrite (bool_decide_eq_true_2 _ Hin). cbn. rewrite Hs. cbn. rewrite Ht. reflexivity.
Qed.

(** The ledger update touches the ledger file, the pending write faults
    and the event log only. *)
Lemma update_ledger_keeps (recording : ZoomRecording.t) (s : State) :
  let s' := snd (update_ledger recording s) in
  staged s' = staged s /\
  completed_recordings s' = completed_recordings s /\
  failed_files s' = failed_files s /\
  file s' = file s.
Proof.
  unfold update_ledger, on_ledger. run_monad.
  destruct (update_meeting_json_file _ _ _ _) as [r c]. cbn. repeat split.
Qed.

(** After a chunk failure reported by the drive as an [APIError], the
    upload branch goes through its [else] block: the file is marked
    uploaded and the failure counter is not touched, whatever happens to
    the ledger write that follows. *)
Lemma handle_downloaded_after_chunk_failure
    (cfg : Config) (io : Behaviour) (recording : ZoomRecording.t)
    (folder_name local_file_path : string) (s : State) (code n : Z) :
  local_file_path ∈ staged s ->
  session_raises (uploading io) = None ->
  task_raises (uploading io) = Some (APIError code) ->
  ZoomRecording.size recording = JNum n ->
  let out := handle_downloaded cfg io false recording folder_name local_file_path s in
  RecordingFiles.status (file (snd out)) = JStr "uploaded" /\
  failed_files (snd out) = failed_files s /\
  completed_recordings (snd out) = completed_recordings s + 1 /\
  (fst out = Ok true -> local_file_path ∉ staged (snd out)).
Proof.
  intros Hin Hs Ht Hn. unfold handle_downloaded, upload_large_file,
    add_total_recording_size, os_remove.
  unfold bind, ret, raise, lift, print, emit, try_except_APIError, try_except,
    get_file, set_file_status, incr_failed_files, incr_completed_recordings, open_rb.
  cbn -[update_ledger].
  rewrite (bool_decide_eq_true_2 _ Hin). cbn -[update_ledger]. rewrite Hs.
  cbn -[update_ledger]. rewrite Ht. cbn -[update_ledger]. rewrite Hn.
  cbn -[update_ledger].
  match goal with
  | |- context [update_ledger ?r ?s1] =>
      pose proof (update_ledger_keeps r s1) as HL;
      destruct (update_ledger r s1) as [[[]|e] s3];
      cbn -[update_ledger] in HL; destruct HL as (Hst & Hc & Hf & Hfile)
  end; cbn -[update_ledger].
  - rewrite Hst, (bool_decide_eq_true_2 _ Hin). cbn. rewrite Hc, Hf, Hfile.
    repeat split; try reflexivity. intros _.
    rewrite elem_of_difference, elem_of_singleton. tauto.
  - rewrite Hc, Hf, Hfile. repeat split; try reflexivity. discriminate.
Qed.

(** C1.  The file of the example recording has status [downloaded] and
    is staged; [dry_run] is false; every chunk upload fails with an
    [APIError] of status 500.  [upload_large_file] prints the error and
    returns, so [main] takes the success path: the status becomes
    [uploaded] (not [upload failed]), the failure counter stays at 0, the
    success counter becomes 1, the ledger records [uploaded], and the
    staged file is deleted. *)
Theorem chunk_failure_is_recorded_as_uploaded :
  let out := example_run false DlCompletes (Some (APIError 500)) "downloaded" true in
  fst out = Ok tt /\
  RecordingFiles.status (file (snd out)) = JStr "uploaded" /\
  failed_files (snd out) = 0 /\
  completed_recordings (snd out) = 1 /\
  (example_path ∉ staged (snd out)) /\
  existsb is_remove (events (snd out)) = true /\
  ledger (snd out)
  = Parsed (JObj [("m-1", JObj (RecordingFiles.to_json (example_file "uploaded")))]).
Proof.
  cbv zeta. repeat split; try (vm_compute; reflexivity).
  apply (bool_decide_eq_false_1 (example_path ∈ _)). vm_compute. reflexivity.
Qed.

(** When the upload raises anything that is not an [APIError], the same
    branch does what the state table asks for. *)
Lemma transport_failure_is_recorded_as_failed :
  let out := example_run false DlCompletes (Some OSError) "downloaded" true in
  fst out = Ok tt /\
  RecordingFiles.status (file (snd out)) = JStr "upload failed" /\
  failed_files (snd out) = 1 /\
  completed_recordings (snd out) = 0 /\
  example_path ∈ staged (snd out).
Proof.
  cbv zeta. repeat split; vm_compute; reflexivity.
Qed.

(* ------------------------------------------------------------------ *)
(** ** The download branch of [main] *)
(* ------------------------------------------------------------------ *)

(** A download that fails inside [download_recording]'s own [try]
    (opening the target file or streaming the body) makes it return
    [False]; the branch of [main] then does nothing at all: no status
    change, no ledger update, no count. *)
Lemma handle_pending_ignores_false
    (cfg : Config) (lib : Library) (io : Behaviour) (recording : ZoomRecording.t)
    (filename folder_name : string) (s : State) (e : exn) :
  downloading io = DlStreamRaises e \/ downloading io = DlOpenRaises e ->
  let out := handle_pending cfg lib io false recording filename folder_name s in
  fst out = Ok true /\
  file (snd out) = file s /\
  ledger (snd out) = ledger s /\
  failed_files (snd out) = failed_files s /\
  write_faults (snd out) = write_faults s /\
  exists evs, events (snd out) = events s ++ evs /\ existsb is_ledger_update evs = false.
Proof.
  intros Hio. unfold handle_pending, download_recording, create_file. run_monad.
  destruct Hio as [-> | ->]; cbn; repeat split;
    eexists; rewrite <- ?app_assoc; (split; [reflexivity|reflexivity]).
Qed.

(** C5.  The file of the example recording is [pending], [dry_run] is
    false, and the download breaks while the body is streamed.
    [download_recording] catches the exception and returns [False], a
    value [main] has no branch for: the status stays [pending] (not
    [download failed]), the ledger is not updated, and the failure
    counter stays at 0. *)
Theorem stream_failure_is_dropped :
  let out := example_run false (DlStreamRaises (OtherException "ChunkedEncodingError"))
                         None "pending" false in
  fst out = Ok tt /\
  RecordingFiles.status (file (snd out)) = JStr "pending" /\
  failed_files (snd out) = 0 /\
  ledger (snd out) = Parsed (JObj []) /\
  existsb is_ledger_update (events (snd out)) = false.
Proof. cbv zeta. repeat split; vm_compute; reflexivity. Qed.

(** When the exception comes from [requests.get], outside that [try],
    [main]'s handler runs and records the failure. *)
Lemma request_failure_is_recorded :
  let out := example_run false (DlGetRaises (OtherException "ConnectionError"))
                         None "pending" false in
  fst out = Ok tt /\
  RecordingFiles.status (file (snd out)) = JStr "download failed" /\
  failed_files (snd out) = 1 /\
  ledger (snd out)
  = Parsed (JObj [("m-1", JObj (RecordingFiles.to_json (example_file "download failed")))]).
Proof. cbv zeta. repeat split; vm_compute; reflexivity. Qed.

(** A download that completes moves the file to [downloaded], writes
    that to the ledger, and the same iteration goes on to the upload. *)
Lemma download_then_upload :
  let out := example_run false DlCompletes None "pending" false in
  fst out = Ok tt /\
  RecordingFiles.status (file (snd out)) = JStr "uploaded" /\
  failed_files (snd out) = 0 /\
  completed_recordings (snd out) = 1 /\
  total_recording_size (snd out) = 1000.
Proof. cbv zeta. repeat split; vm_compute; reflexivity. Qed.

(* ------------------------------------------------------------------ *)
(** ** Dry run *)
(* ------------------------------------------------------------------ *)

(** For a [pending] file a dry run only prints: the file object, the
    ledger, the staged files and the counters are untouched, and nothing
    but [print] events are added. *)
Lemma process_file_dry_run_pending
    (cfg : Config) (lib : Library) (io : Behaviour) (recording : ZoomRecording.t)
    (s : State) (names : string * string) :
  RecordingFiles.status (file s) = JStr "pending" ->
  format_filename cfg lib
    {| p_file_extension := RecordingFiles.file_extension (file s);
       p_recording := recording;
       p_recording_id := RecordingFiles.id (file s);
       p_recording_type := RecordingFiles.type (file s) |} = Ok names ->
  let out := process_file cfg lib io true recording s in
  fst out = Ok tt /\
  file (snd out) = file s /\
  ledger (snd out) = ledger s /\
  staged (snd out) = staged s /\
  write_faults (snd out) = write_faults s /\
  total_recording_size (snd out) = total_recording_size s /\
  completed_recordings (snd out) = completed_recordings s /\
  failed_files (snd out) = failed_files s /\
  exists evs, events (snd out) = events s ++ evs /\ forallb is_print evs = true.
Proof.
  intros Hst Hnames. unfold process_file, handle_pending. run_monad.
  rewrite Hnames. cbn. rewrite Hst. cbn. rewrite Hst. cbn.
  repeat split. eexists. rewrite <- !app_assoc. split; reflexivity.
Qed.

(** For a [downloaded] file a dry run skips the upload call, then runs
    the [else] block of the [try] all the same. *)
Lemma handle_downloaded_dry_run
    (cfg : Config) (io : Behaviour) (recording : ZoomRecording.t)
    (folder_name local_file_path : string) (s : State) (n : Z) :
  ZoomRecording.size recording = JNum n ->
  let out := handle_downloaded cfg io true recording folder_name local_file_path s in
  RecordingFiles.status (file (snd out)) = JStr "uploaded" /\
  completed_recordings (snd out) = completed_recordings s + 1 /\
  exists evs,
    events (snd out) = events s ++ evs /\
    existsb is_ledger_update evs = true /\
    existsb is_transfer evs = false.
Proof.
  intros Hn. unfold handle_downloaded, update_ledger, add_total_recording_size,
    on_ledger, os_remove. run_monad. rewrite Hn. cbn.
  destruct (update_meeting_json_file _ _ _ _) as [[[]|e] c]; cbn.
  - destruct (bool_decide _); cbn; repeat split;
      eexists; rewrite <- ?app_assoc; (split; [reflexivity|split; reflexivity]).
  - repeat split. eexists. rewrite <- ?app_assoc. split; [reflexivity|split; reflexivity].
Qed.

(** C2.  With [dry_run] true, the staged file of the example recording
    in status [downloaded] is not uploaded (no transfer is performed),
    but it is marked [uploaded], the ledger is rewritten with that
    status, the success counter goes to 1, and the staged file is
    deleted. *)
Theorem dry_run_marks_downloaded_file_uploaded :
  let out := example_run true DlCompletes None "downloaded" true in
  fst out = Ok tt /\
  existsb is_transfer (events (snd out)) = false /\
  RecordingFiles.status (file (snd out)) = JStr "uploaded" /\
  existsb is_ledger_update (events (snd out)) = true /\
  ledger (snd out)
  = Parsed (JObj [("m-1", JObj (RecordingFiles.to_json (example_file "uploaded")))]) /\
  existsb is_remove (events (snd out)) = true /\
  (example_path ∉ staged (snd out)) /\
  completed_recordings (snd out) = 1.
Proof.
  cbv zeta. repeat split; try (vm_compute; reflexivity).
  apply (bool_decide_eq_false_1 (example_path ∈ _)). vm_compute. reflexivity.
Qed.

(* ------------------------------------------------------------------ *)
(** ** The ledger fallback of [main] and the exit status *)
(* ------------------------------------------------------------------ *)

(** With nothing listed and a ledger that holds an entry, [main] calls
    [ZoomRecording] with one argument and the [TypeError] leaves it. *)
Lemma main_fallback_raises
    (cfg : Config) (lib : Library) (io : RecordingFiles.t -> Behaviour)
    (dry_run : bool) (users : list string) (s : State)
    (k : string) (v : json) (d : dict) :
  ledger s = Parsed (JObj ((k, v) :: d)) ->
  fst (main cfg lib io dry_run users (Ok []) s) = Raise TypeError.
Proof.
  intros Hl. unfold main, create_ledger_if_absent, recordings_from_ledger. run_monad.
  rewrite Hl. cbn. reflexivity.
Qed.

(** With nothing listed and an absent or empty ledger, [main] returns 1. *)
Lemma main_nothing_to_do
    (cfg : Config) (lib : Library) (io : RecordingFiles.t -> Behaviour)
    (dry_run : bool) (users : list string) (s : State) :
  ledger s = Absent \/ ledger s = Parsed (JObj []) ->
  write_faults s = [] ->
  fst (main cfg lib io dry_run users (Ok []) s) = Ok (Some 1).
Proof.
  intros Hl Hf. unfold main, create_ledger_if_absent, recordings_from_ledger, on_ledger.
  run_monad. destruct Hl as [Hl|Hl]; rewrite Hl; cbn; rewrite ?Hf; cbn; reflexivity.
Qed.

(** C4.  The provider lists no recording for the user.  With one prior
    entry in the ledger, [main] does not go on with recordings rebuilt
    from it: the rebuilding raises [TypeError] and the process ends with
    status 1.  With an empty ledger [main] returns 1, which the
    [__main__] block drops: the process ends with status 0. *)
Theorem ledger_fallback_crashes :
  get_recordings_for_users example_config net_no_meetings ["user@example.com"] []
  = Some (Ok []) /\
  (let out := main example_config example_library
                   (fun _ => example_behaviour DlCompletes None) false
                   ["user@example.com"] (Ok [])
                   (initial_state example_ledger ∅ (example_file "pending")) in
   fst out = Raise TypeError /\ exit_status (fst out) = 1 /\
   ledger (snd out) = example_ledger) /\
  (let out := main example_config example_library
                   (fun _ => example_behaviour DlCompletes None) false
                   ["user@example.com"] (Ok [])
                   (initial_state (Parsed (JObj [])) ∅ (example_file "pending")) in
   fst out = Ok (Some 1) /\ exit_status (fst out) = 0).
Proof. cbv zeta. repeat split; vm_compute; reflexivity. Qed.

(* ------------------------------------------------------------------ *)
(** * Further properties *)
(* ------------------------------------------------------------------ *)

(** ** [per_delta] for an arbitrary step *)









(** ** [list_recordings]: termination and what leaves it *)







Lemma retry_from (ask : nat -> reply) (recordings_data : dict) :
  forall (attempts i k : nat),
    (i <= k < i + attempts)%nat ->
    (forall j, (i <= j < k)%nat -> is_timeout (ask j) = true) ->
    ask k = Reply recordings_data ->
    retry ask attempts i = Got recordings_data.
Proof.
  induction attempts as [|n IH]; intros i k Hk Hto Hreply; [lia|].
  cbn [retry]. destruct (Nat.eq_dec i k) as [->|Hne].
  - rewrite Hreply. reflexivity.
  - pose proof (Hto i ltac:(lia)) as Hi. unfold is_timeout in Hi.
    destruct (ask i) as [?|[]]; try discriminate; apply (IH (S i) k); auto; try lia;
      intros j Hj; apply Hto; lia.
Qed.

Lemma retry_ext (ask ask' : nat -> reply) :
  forall (attempts i : nat),
    (forall j, (i <= j < i + attempts)%nat -> ask j = ask' j) ->
    retry ask attempts i = retry ask' attempts i.
Proof.
  induction attempts as [|n IH]; intros i H; [reflexivity|].
  cbn [retry]. rewrite <- (H i) by lia.
  destruct (ask i) as [?|[]]; try reflexivity; apply IH; intros j Hj; apply H; lia.
Qed.

(** X4.  The retry loop of a window returns the first answer that is not
    a timeout, provided it comes within the three calls; what the
    provider would answer to a fourth call has no influence. *)
Theorem retry_first_answer (ask : nat -> reply) (k : nat) (recordings_data : dict) :
  (k < max_retries)%nat ->
  (forall j, (j < k)%nat -> is_timeout (ask j) = true) ->
  ask k = Reply recordings_data ->
  retry ask max_retries 0 = Got recordings_data /\
  forall ask' : nat -> reply,
    (forall j, (j < max_retries)%nat -> ask' j = ask j) ->
    retry ask' max_retries 0 = Got recordings_data.
Proof.
  intros Hk Hto Hreply.
  assert (H : retry ask max_retries 0 = Got recordings_data).
  { apply (retry_from ask recordings_data max_retries 0 k); auto; try lia.
    intros j Hj. apply Hto. lia. }
  split; [exact H|]. intros ask' Hsame. rewrite <- H.
  apply retry_ext. intros j Hj. apply Hsame. lia.
Qed.

Lemma retry_first_answer_witness :
  retry (fun i => if Nat.eqb i 2 then Reply [("meetings", JArr [])] else Fails ReadTimeout)
        max_retries 0
  = Got [("meetings", JArr [])].
Proof.
  refine (proj1 (retry_first_answer _ 2 _ _ _ _)).
  - unfold max_retries. lia.
  - intros j Hj. destruct j as [|[|j]]; [reflexivity|reflexivity|lia].
  - reflexivity.
Defined.

(** ** [RecordingFiles] and [ZoomRecording]: construction and [to_json] *)

Lemma RecordingFiles_init_raises (file_json : json) (e : exn) :
  RecordingFiles.init file_json = Raise e -> e = AttributeError.
Proof.
  destruct file_json as [| | | | |d]; cbn; try congruence.
  destruct (py_get d "file_extension" JNull); congruence.
Qed.

Lemma append_recording_files_ok (items : list json) :
  forall acc fs,
    ZoomRecording.append_recording_files items acc = Ok fs ->
    exists fs', fs = acc ++ fs' /\
                Forall2 (fun j f => RecordingFiles.init j = Ok f) items fs'.
Proof.
  induction items as [|j items IH]; intros acc fs; cbn.
  - intros [= <-]. exists []. rewrite app_nil_r. split; [reflexivity|constructor].
  - destruct (RecordingFiles.init j) as [f|e] eqn:E; [|discriminate].
    intros H. destruct (IH _ _ H) as (fs' & -> & Hall).
    exists (f :: fs'). rewrite <- app_assoc. split; [reflexivity|].
    constructor; assumption.
Qed.

Lemma append_recording_files_bad (items : list json) :
  forall acc,
    Exists (fun j => forall f, RecordingFiles.init j <> Ok f) items ->
    ZoomRecording.append_recording_files items acc = Raise AttributeError.
Proof.
  induction items as [|j items IH]; intros acc Hex; [inversion Hex|].
  cbn. destruct (RecordingFiles.init j) as [f|e] eqn:E.
  - apply IH. inversion Hex as [? ? Hbad|]; [|assumption].
    exfalso. exact (Hbad f E).
  - rewrite (RecordingFiles_init_raises _ _ E). reflexivity.
Qed.

(** X5.  A [ZoomRecording] built from a meeting object holds one
    [RecordingFiles] record per entry of ["recording_files"], in the same
    order, each built by [RecordingFiles.__init__]; a single entry that
    [RecordingFiles.__init__] rejects makes the construction of the whole
    recording raise [AttributeError]. *)
Theorem ZoomRecording_init_files (meeting_json : dict) (user : string) :
  (forall r,
      ZoomRecording.init (JObj meeting_json) (Some user) = Ok r ->
      exists items,
        py_iter (py_get meeting_json "recording_files" (JArr [])) = Ok items /\
        Forall2 (fun j f => RecordingFiles.init j = Ok f) items (ZoomRecording.files r) /\
        ZoomRecording.user r = user) /\
  (forall items,
      py_iter (py_get meeting_json "recording_files" (JArr [])) = Ok items ->
      Exists (fun j => forall f, RecordingFiles.init j <> Ok f) items ->
      ZoomRecording.init (JObj meeting_json) (Some user) = Raise AttributeError).
Proof.
  split.
  - intros r. cbn.
    destruct (py_iter _) as [items|e]; [|discriminate].
    destruct (ZoomRecording.append_recording_files items []) as [fs|e] eqn:E;
      [|discriminate].
    intros [= <-]. exists items. cbn.
    destruct (append_recording_files_ok _ _ _ E) as (fs' & -> & Hall). auto.
  - intros items Hit Hex. cbn. rewrite Hit.
    rewrite (append_recording_files_bad items [] Hex). reflexivity.
Qed.

Lemma ZoomRecording_init_files_witness :
  ZoomRecording.init
    (JObj [("uuid", JStr "m-1");
           ("recording_files",
            JArr [JObj [("id", JStr "f-1"); ("file_extension", JStr "MP4")];
                  JObj [("id", JStr "f-2")]])])
    (Some "user@example.com")
  = Raise AttributeError.
Proof.
  apply (proj2 (ZoomRecording_init_files
                  [("uuid", JStr "m-1");
                   ("recording_files",
                    JArr [JObj [("id", JStr "f-1"); ("file_extension", JStr "MP4")];
                          JObj [("id", JStr "f-2")]])]
                  "user@example.com")
               [JObj [("id", JStr "f-1"); ("file_extension", JStr "MP4")];
                JObj [("id", JStr "f-2")]]).
  - reflexivity.
  - apply Exists_cons_tl, Exists_cons_hd. intros f. discriminate.
Defined.

Lemma lower_char_idempotent (c : ascii) : lower_char (lower_char c) = lower_char c.
Proof.
  destruct c as [b0 b1 b2 b3 b4 b5 b6 b7].
  destruct b0, b1, b2, b3, b4, b5, b6, b7; vm_compute; reflexivity.
Qed.

Lemma lower_idempotent (s : string) : lower (lower s) = lower s.
Proof.
  unfold lower. induction s as [|c s IH]; cbn; [reflexivity|].
  rewrite lower_char_idempotent, IH. reflexivity.
Qed.

(** X6.  Reading a file record back from its own [to_json] keeps the
    download URL, the id, the status and the (already lower-case)
    extension, but loses the recording type: [to_json] writes it under
    ["type"] while the constructor reads ["recording_type"]. *)
Theorem RecordingFiles_to_json_round_trip (file_json : json) (f : RecordingFiles.t) :
  RecordingFiles.init file_json = Ok f ->
  RecordingFiles.init (JObj (RecordingFiles.to_json f))
  = Ok {| RecordingFiles.download_url := RecordingFiles.download_url f;
          RecordingFiles.file_extension := RecordingFiles.file_extension f;
          RecordingFiles.id := RecordingFiles.id f;
          RecordingFiles.status := RecordingFiles.status f;
          RecordingFiles.type := JNull |}.
Proof.
  intros H. destruct (RecordingFiles_init_ok_inv _ _ H) as (d & ext & _ & _ & Hext).
  cbn. rewrite Hext, lower_idempotent. reflexivity.
Qed.

Lemma RecordingFiles_to_json_round_trip_witness :
  RecordingFiles.init
    (JObj (RecordingFiles.to_json
             {| RecordingFiles.download_url := JStr "https://zoom.example/rec/f-1";
                RecordingFiles.file_extension := "mp4";
                RecordingFiles.id := JStr "f-1";
                RecordingFiles.status := JStr "pending";
                RecordingFiles.type := JStr "audio_only" |}))
  = Ok {| RecordingFiles.download_url := JStr "https://zoom.example/rec/f-1";
          RecordingFiles.file_extension := "mp4";
          RecordingFiles.id := JStr "f-1";
          RecordingFiles.status := JStr "pending";
          RecordingFiles.type := JNull |}.
Proof.
  apply (RecordingFiles_to_json_round_trip
           (JObj [("download_url", JStr "https://zoom.example/rec/f-1");
                  ("file_extension", JStr "MP4"); ("id", JStr "f-1");
                  ("recording_type", JStr "audio_only")])).
  reflexivity.
Defined.

(** X7.  Rebuilding a recording from its own [to_json] (what the
    [load_from_file] branch does with [recording["user"]]) keeps the
    account id, start time, topic and user, and loses the files, the
    meeting id, the passcode and the size: [to_json] writes them under
    ["files"], ["id"], ["password"], ["size"], the constructor reads
    ["recording_files"], ["uuid"], ["recording_play_passcode"],
    ["total_size"]. *)
Theorem ZoomRecording_to_json_round_trip (r : ZoomRecording.t) :
  ZoomRecording.init (JObj (ZoomRecording.to_json r)) (Some (ZoomRecording.user r))
  = Ok {| ZoomRecording.account_id := ZoomRecording.account_id r;
          ZoomRecording.files := [];
          ZoomRecording.id := JNull;
          ZoomRecording.password := JNull;
          ZoomRecording.size := JNull;
          ZoomRecording.start_time := ZoomRecording.start_time r;
          ZoomRecording.topic := ZoomRecording.topic r;
          ZoomRecording.user := ZoomRecording.user r |}.
Proof. reflexivity. Qed.

(** ** The ledger store: what an update keeps *)

Lemma dict_keys_set (k : string) (v : json) (d : dict) :
  dict_keys (dict_set k v d) = if dict_mem k d then dict_keys d else dict_keys d ++ [k].
Proof.
  unfold dict_mem, dict_keys. induction d as [|[k' w] d IH]; cbn; [reflexivity|].
  destruct (String.eqb_spec k k') as [->|Hne]; cbn; [reflexivity|].
  rewrite IH. destruct (dict_get k d); reflexivity.
Qed.

Lemma merge_entry_shape (d : dict) (meeting_id : json) (meeting_json : dict) (data' : json) :
  merge_entry (JObj d) meeting_id meeting_json = Ok data' ->
  exists k v, dumped_key meeting_id = Ok k /\ data' = JObj (dict_set k v d).
Proof.
  cbn. destruct meeting_id as [|[]|n|k|l|o]; cbn; try discriminate;
    try (intros [= <-]; eauto).
  destruct (dict_get k d) as [[| | | | |entry]|]; try discriminate; intros [= <-]; eauto.
Qed.

(** X8.  An update that succeeds never deletes or reorders ledger
    entries: the meeting ids already in the file stay at their positions
    with their entries untouched, except the updated id, which keeps its
    position when present and is appended at the end when new. *)
Theorem update_meeting_json_file_keeps_entries
    (fault : write_fault) (meeting_id : json) (meeting_json : dict)
    (d : dict) (new : file_content) :
  update_meeting_json_file fault meeting_id meeting_json (Parsed (JObj d)) = (Ok tt, new) ->
  exists k d',
    dumped_key meeting_id = Ok k /\
    new = Parsed (JObj d') /\
    dict_keys d' = (if dict_mem k d then dict_keys d else dict_keys d ++ [k]) /\
    forall k', k' <> k -> dict_get k' d' = dict_get k' d.
Proof.
  unfold update_meeting_json_file. cbn [load_or_empty json_load].
  destruct (merge_entry (JObj d) meeting_id meeting_json) as [data'|e] eqn:Hm;
    [|discriminate].
  destruct (merge_entry_shape _ _ _ _ Hm) as (k & v & Hk & ->).
  destruct fault; cbn; try discriminate. intros [= <-].
  exists k, (dict_set k v d). split; [exact Hk|]. split; [reflexivity|].
  split; [apply dict_keys_set|].
  intros k' Hne. rewrite dict_get_set.
  destruct (String.eqb_spec k' k); [congruence|reflexivity].
Qed.

Lemma update_meeting_json_file_keeps_entries_witness :
  exists k d',
    dumped_key (JStr "m-2") = Ok k /\
    Parsed (JObj [("m-1", JObj [("_status", JStr "uploaded")]);
                  ("m-2", JObj [("_status", JStr "downloaded")])]) = Parsed (JObj d') /\
    dict_keys d'
    = (if dict_mem k [("m-1", JObj [("_status", JStr "uploaded")])]
       then dict_keys [("m-1", JObj [("_status", JStr "uploaded")])]
       else dict_keys [("m-1", JObj [("_status", JStr "uploaded")])] ++ [k]) /\
    forall k', k' <> k ->
               dict_get k' d' = dict_get k' [("m-1", JObj [("_status", JStr "uploaded")])].
Proof.
  apply (update_meeting_json_file_keeps_entries NoFault (JStr "m-2")
           [("_status", JStr "downloaded")]
           [("m-1", JObj [("_status", JStr "uploaded")])]).
  reflexivity.
Defined.

(** X9.  The ledger is keyed by meeting, and every entry that [main]
    writes is a whole [RecordingFiles.to_json]: when the entry of a
    meeting was written for one file, an update for another file of the
    same meeting overwrites all five fields, so the entry describes only
    the file written last. *)
Theorem ledger_entry_holds_last_file
    (f1 f2 : RecordingFiles.t) (k : string) (d : dict) :
  dict_get k d = Some (JObj (RecordingFiles.to_json f1)) ->
  update_meeting_json_file NoFault (JStr k) (RecordingFiles.to_json f2) (Parsed (JObj d))
  = (Ok tt, Parsed (JObj (dict_set k (JObj (RecordingFiles.to_json f2)) d))).
Proof.
  intros H. unfold update_meeting_json_file. cbn [load_or_empty json_load merge_entry].
  rewrite H. reflexivity.
Qed.

Lemma ledger_entry_holds_last_file_witness :
  update_meeting_json_file NoFault (JStr "m-1")
    (RecordingFiles.to_json (example_file "pending"))
    (Parsed (JObj [("m-1", JObj (RecordingFiles.to_json
                                   {| RecordingFiles.download_url := JStr "https://zoom.example/rec/f-0";
                                      RecordingFiles.file_extension := "m4a";
                                      RecordingFiles.id := JStr "f-0";
                                      RecordingFiles.status := JStr "uploaded";
                                      RecordingFiles.type := JStr "chat_file" |}))]))
  = (Ok tt, Parsed (JObj [("m-1", JObj (RecordingFiles.to_json (example_file "pending")))])).
Proof.
  apply (ledger_entry_holds_last_file
           {| RecordingFiles.download_url := JStr "https://zoom.example/rec/f-0";
              RecordingFiles.file_extension := "m4a";
              RecordingFiles.id := JStr "f-0";
              RecordingFiles.status := JStr "uploaded";
              RecordingFiles.type := JStr "chat_file" |}
           (example_file "pending") "m-1").
  reflexivity.
Defined.

(** X10.  The two readers of the ledger disagree on a file that does not
    parse: [update_meeting_json_file] takes it for an empty ledger and
    replaces it by one that holds just the new entry, while [main], when
    nothing was listed, loads it without protection and the
    [JSONDecodeError] leaves [main]. *)
Theorem unparseable_ledger
    (cfg : Config) (lib : Library) (io : RecordingFiles.t -> Behaviour)
    (dry_run : bool) (users : list string) (s : State)
    (k : string) (meeting_json : dict) :
  ledger s = Unparseable ->
  update_meeting_json_file NoFault (JStr k) meeting_json (ledger s)
  = (Ok tt, Parsed (JObj [(k, JObj meeting_json)])) /\
  fst (main cfg lib io dry_run users (Ok []) s) = Raise JSONDecodeError /\
  ledger (snd (main cfg lib io dry_run users (Ok []) s)) = Unparseable.
Proof.
  intros Hl. split; [rewrite Hl; reflexivity|].
  unfold main, create_ledger_if_absent, recordings_from_ledger. run_monad.
  rewrite Hl. cbn. split; reflexivity.
Qed.

Lemma unparseable_ledger_witness :
  fst (main example_config example_library (fun _ => example_behaviour DlCompletes None)
            false ["user@example.com"] (Ok [])
            (initial_state Unparseable ∅ (example_file "pending")))
  = Raise JSONDecodeError.
Proof.
  exact (proj1 (proj2 (unparseable_ledger example_config example_library
                         (fun _ => example_behaviour DlCompletes None) false
                         ["user@example.com"]
                         (initial_state Unparseable ∅ (example_file "pending"))
                         "m-1" [] eq_refl))).
Defined.

(** ** [append_to_json_file] *)

(** X11.  On a file that holds a dict with a list under [field_name],
    [append_to_json_file] adds the object at the end of that list and
    leaves the other keys, their order and their values alone; it is not
    idempotent: a second identical call adds the object again. *)
Theorem append_to_json_file_appends
    (field_name : string) (json_dict : json) (d : dict) (items : list json) :
  dict_get field_name d = Some (JArr items) ->
  let once := append_to_json_file NoFault field_name json_dict (Parsed (JObj d)) in
  exists d',
    once = (Ok tt, Parsed (JObj d')) /\
    dict_get field_name d' = Some (JArr (items ++ [json_dict])) /\
    dict_keys d' = dict_keys d /\
    (forall k', k' <> field_name -> dict_get k' d' = dict_get k' d) /\
    exists d'',
      append_to_json_file NoFault field_name json_dict (snd once)
      = (Ok tt, Parsed (JObj d'')) /\
      dict_get field_name d'' = Some (JArr (items ++ [json_dict; json_dict])).
Proof.
  intros H once. subst once. unfold append_to_json_file. cbn [json_load].
  rewrite H. cbn [write_json snd].
  eexists. split; [reflexivity|].
  assert (Hget : forall v, dict_get field_name (dict_set field_name v d) = Some v)
    by (intros v; rewrite dict_get_set, String.eqb_refl; reflexivity).
  split; [apply Hget|]. split.
  { rewrite dict_keys_set. unfold dict_mem. rewrite H. reflexivity. }
  split.
  { intros k' Hne. rewrite dict_get_set.
    destruct (String.eqb_spec k' field_name); [congruence|reflexivity]. }
  cbn [snd json_load].
  exists (dict_set field_name (JArr ((items ++ [json_dict]) ++ [json_dict]))
            (dict_set field_name (JArr (items ++ [json_dict])) d)).
  rewrite Hget. split; [reflexivity|].
  rewrite dict_get_set, String.eqb_refl, <- app_assoc. reflexivity.
Qed.

Lemma append_to_json_file_appends_witness :
  exists d',
    append_to_json_file NoFault "user@example.com" (JStr "m-2")
      (Parsed (JObj [("user@example.com", JArr [JStr "m-1"])]))
    = (Ok tt, Parsed (JObj d')) /\
    dict_get "user@example.com" d' = Some (JArr [JStr "m-1"; JStr "m-2"]).
Proof.
  destruct (append_to_json_file_appends "user@example.com" (JStr "m-2")
              [("user@example.com", JArr [JStr "m-1"])] [JStr "m-1"] eq_refl)
    as (d' & H1 & H2 & _).
  exists d'. split; [exact H1|exact H2].
Defined.



(** ** Invariants of monadic code *)

Section Preservation.

Context (R : State -> State -> Prop) {HR : PreOrder R}.

Lemma preserves_ret {A : Type} (a : A) : preserves R (ret a).
Proof. intros s. reflexivity. Qed.

Lemma preserves_raise {A : Type} (e : exn) : preserves R (@raise A e).
Proof. intros s. reflexivity. Qed.

Lemma preserves_lift {A : Type} (r : result A) : preserves R (lift r).
Proof. intros s. reflexivity. Qed.

Lemma preserves_get_file : preserves R get_file.
Proof. intros s. reflexivity. Qed.

Lemma preserves_bind {A B : Type} (m : M A) (k : A -> M B) :
  preserves R m -> (forall a, preserves R (k a)) -> preserves R (bind m k).
Proof.
  intros Hm Hk s. unfold bind. specialize (Hm s).
  destruct (m s) as [[a|e] s1]; cbn in *; [|exact Hm].
  etransitivity; [exact Hm|apply Hk].
Qed.

Lemma preserves_try_except {A : Type} (body : M A) (handler : exn -> M A) :
  preserves R body -> (forall e, preserves R (handler e)) ->
  preserves R (try_except body handler).
Proof.
  intros Hm Hk s. unfold try_except. specialize (Hm s).
  destruct (body s) as [[a|e] s1]; cbn in *; [exact Hm|].
  etransitivity; [exact Hm|apply Hk].
Qed.

Lemma preserves_try_except_APIError {A : Type} (body : M A) (handler : Z -> M A) :
  preserves R body -> (forall code, preserves R (handler code)) ->
  preserves R (try_except_APIError body handler).
Proof.
  intros Hm Hk. unfold try_except_APIError. apply preserves_try_except; [exact Hm|].
  intros []; try apply preserves_raise. apply Hk.
Qed.

End Preservation.

#[local] Instance same_but_events_preorder : PreOrder same_but_events.
Proof.
  split.
  - intros s. unfold same_but_events. tauto.
  - intros s1 s2 s3. unfold same_but_events. intuition congruence.
Qed.

#[local] Instance same_bookkeeping_preorder : PreOrder same_bookkeeping.
Proof.
  split.
  - intros s. unfold same_bookkeeping. tauto.
  - intros s1 s2 s3. unfold same_bookkeeping. intuition congruence.
Qed.

#[local] Instance same_file_identity_preorder : PreOrder same_file_identity.
Proof.
  split.
  - intros s. unfold same_file_identity. tauto.
  - intros s1 s2 s3. unfold same_file_identity. intuition congruence.
Qed.

#[local] Instance counters_grow_preorder : PreOrder counters_grow.
Proof.
  split.
  - intros s. unfold counters_grow. lia.
  - intros s1 s2 s3. unfold counters_grow. lia.
Qed.

#[local] Instance keeps_staged_except_preorder (path : string) :
  PreOrder (keeps_staged_except path).
Proof.
  split.
  - intros s p _ H. exact H.
  - intros s1 s2 s3 H12 H23 p Hp H. apply H23, H12; assumption.
Qed.

#[local] Instance no_new_transfer_preorder : PreOrder no_new_transfer.
Proof.
  split.
  - intros s. exists []. rewrite app_nil_r. split; reflexivity.
  - intros s1 s2 s3 (e1 & H1 & N1) (e2 & H2 & N2).
    exists (e1 ++ e2). rewrite H2, H1, <- app_assoc. split; [reflexivity|].
    rewrite existsb_app, N1, N2. reflexivity.
Qed.

(** Splits a goal [preserves R m] along the structure of [m]. *)
Ltac preserves_step :=
  match goal with
  | |- preserves _ (bind _ _) =>
      apply preserves_bind; try typeclasses eauto; [|intros ?]
  | |- preserves _ (try_except_APIError _ _) =>
      apply preserves_try_except_APIError; try typeclasses eauto; [|intros ?]
  | |- preserves _ (try_except _ _) =>
      apply preserves_try_except; try typeclasses eauto; [|intros ?]
  | |- preserves _ (ret _) => apply preserves_ret; typeclasses eauto
  | |- preserves _ (raise _) => apply preserves_raise; typeclasses eauto
  | |- preserves _ (lift _) => apply preserves_lift; typeclasses eauto
  | |- preserves _ get_file => apply preserves_get_file; typeclasses eauto
  | |- preserves _ (print _) => unfold print
  | |- preserves _ (let _ := _ in _) => cbv zeta
  | |- preserves _ (match ?x with _ => _ end) => destruct x
  end.

(** Closes [preserves R m] for a primitive [m] by running it. *)
Ltac preserves_primitive R :=
  let s := fresh "s" in
  intros s; unfold R, update_ledger, bind, get_file, emit, set_file_status,
    incr_failed_files, incr_completed_recordings, add_total_recording_size,
    create_file, open_rb, os_remove, on_ledger; cbn;
  repeat match goal with
         | |- context [match ?x with _ => _ end] => destruct x; cbn
         end;
  try (repeat split; (reflexivity || lia)).

(** ** [upload_large_file] and [download_recording]: outcomes and frames *)

(** X13.  The chunk size handed to the upload task never exceeds 5 MiB,
    is the full 5 MiB for files of at least that size and one byte less
    than the file otherwise; for a file of at most one byte it is zero or
    negative. *)
Theorem chunk_size_bounds (total : Z) :
  chunk_size total <= 5242880 /\
  (5242880 <= total -> chunk_size total = 5242880) /\
  (total < 5242880 -> chunk_size total = total - 1) /\
  (0 < chunk_size total <-> 2 <= total).
Proof.
  unfold chunk_size. change (5 * 1024 * 1024) with 5242880. cbv zeta.
  destruct (Z.ltb_spec total 5242880); lia.
Qed.

Lemma chunk_size_bounds_witness : chunk_size 1 = 1 - 1.
Proof. apply (proj1 (proj2 (proj2 (chunk_size_bounds 1)))). lia. Defined.

Lemma upload_large_file_frame
    (io : upload_behaviour) (drive_id local_file_path remote_file_path : string) :
  preserves same_but_events
    (upload_large_file io drive_id local_file_path remote_file_path).
Proof.
  unfold upload_large_file. repeat preserves_step;
    preserves_primitive same_but_events.
Qed.


(** X15.  When the drive rejects the creation of the upload session with
    an [APIError], no chunk is uploaded: the only effects are the session
    request and the printed error, and the call ends in
    [UnboundLocalError]. *)
Theorem upload_session_rejected
    (io : upload_behaviour) (drive_id local_file_path remote_file_path : string)
    (s : State) (code : Z) :
  local_file_path ∈ staged s ->
  session_raises io = Some (APIError code) ->
  fst (upload_large_file io drive_id local_file_path remote_file_path s)
  = Raise UnboundLocalError /\
  events (snd (upload_large_file io drive_id local_file_path remote_file_path s))
  = events s ++ [EvCreateUploadSession drive_id remote_file_path;
                 EvPrint "Error creating upload session: {ex}"].
Proof.
  intros Hin Hs. unfold upload_large_file. run_monad.
  rewrite (bool_decide_eq_true_2 _ Hin). cbn. rewrite Hs. cbn.
  rewrite <- app_assoc. split; reflexivity.
Qed.

Lemma upload_session_rejected_witness :
  fst (upload_large_file
         {| session_raises := Some (APIError 403); total_length := 10; task_raises := None |}
         "drive-1" example_path "root:/backup/x:"
         (initial_state (Parsed (JObj [])) {[example_path]} (example_file "downloaded")))
  = Raise UnboundLocalError.
Proof.
  apply (fun H => proj1 (upload_session_rejected
           {| session_raises := Some (APIError 403); total_length := 10; task_raises := None |}
           "drive-1" example_path "root:/backup/x:"
           (initial_state (Parsed (JObj [])) {[example_path]} (example_file "downloaded"))
           403 H eq_refl)).
  apply (bool_decide_eq_true_1 (example_path ∈ _)). vm_compute. reflexivity.
Defined.

Lemma download_recording_frame
    (cfg : Config) (lib : Library) (io : download_behaviour)
    (download_url email filename folder_name : string) :
  preserves same_bookkeeping
    (download_recording cfg lib io download_url email filename folder_name).
Proof.
  unfold download_recording. repeat preserves_step;
    preserves_primitive same_bookkeeping.
Qed.

(** X16.  [download_recording] answers [False], without raising, when
    opening the target file or streaming the body fails, and after a
    failure in mid-stream the partial file stays on disk; a failure of
    [os.makedirs], [requests.get] or the content-length conversion is
    raised to the caller; otherwise the file is on disk and the answer is
    [True].  It never touches the ledger, the counters or the file
    object. *)
Theorem download_recording_outcome
    (cfg : Config) (lib : Library) (io : download_behaviour)
    (download_url email filename folder_name : string) (s : State) :
  let full_filename :=
    sanitize_filepath lib (DOWNLOAD_DIRECTORY cfg +:+ "/" +:+ folder_name)
      +:+ "/" +:+ sanitize_filename lib filename in
  let out := download_recording cfg lib io download_url email filename folder_name s in
  same_bookkeeping s (snd out) /\
  match io with
  | DlCompletes => fst out = Ok true /\ full_filename ∈ staged (snd out)
  | DlStreamRaises _ => fst out = Ok false /\ full_filename ∈ staged (snd out)
  | DlOpenRaises _ => fst out = Ok false /\ staged (snd out) = staged s
  | DlMakedirsRaises e | DlGetRaises e => fst out = Raise e /\ staged (snd out) = staged s
  | DlContentLengthRaises =>
      fst out = Raise (OtherException "ValueError") /\ staged (snd out) = staged s
  end.
Proof.
  cbv zeta. split; [apply download_recording_frame|].
  unfold download_recording, create_file. run_monad.
  destruct io; cbn; split; try reflexivity;
    apply elem_of_union; left; apply elem_of_singleton; reflexivity.
Qed.

(** ** The per-file state machine: what it never changes *)

Lemma process_file_keeps_identity
    (cfg : Config) (lib : Library) (io : Behaviour) (dry_run : bool)
    (recording : ZoomRecording.t) :
  preserves same_file_identity (process_file cfg lib io dry_run recording).
Proof.
  unfold process_file, handle_pending, handle_downloaded, download_recording,
    upload_large_file.
  repeat preserves_step; preserves_primitive same_file_identity.
Qed.

Lemma process_file_counters_grow
    (cfg : Config) (lib : Library) (io : Behaviour) (dry_run : bool)
    (recording : ZoomRecording.t) :
  preserves counters_grow (process_file cfg lib io dry_run recording).
Proof.
  unfold process_file, handle_pending, handle_downloaded, download_recording,
    upload_large_file.
  repeat preserves_step; preserves_primitive counters_grow.
Qed.

(** X17.  Whatever the network, the drive and the disk do, and whether
    it returns or raises, processing a file changes nothing of the file
    object but its status, and never lowers the count of failed files or
    of completed recordings. *)
Theorem process_file_invariants
    (cfg : Config) (lib : Library) (io : Behaviour) (dry_run : bool)
    (recording : ZoomRecording.t) (s : State) :
  let s' := snd (process_file cfg lib io dry_run recording s) in
  RecordingFiles.download_url (file s') = RecordingFiles.download_url (file s) /\
  RecordingFiles.file_extension (file s') = RecordingFiles.file_extension (file s) /\
  RecordingFiles.id (file s') = RecordingFiles.id (file s) /\
  RecordingFiles.type (file s') = RecordingFiles.type (file s) /\
  failed_files s <= failed_files s' /\
  completed_recordings s <= completed_recordings s'.
Proof.
  cbv zeta.
  destruct (process_file_keeps_identity cfg lib io dry_run recording s) as (H1 & H2 & H3 & H4).
  destruct (process_file_counters_grow cfg lib io dry_run recording s) as (H5 & H6).
  auto 10.
Qed.

Lemma process_file_after_names
    (cfg : Config) (lib : Library) (io : Behaviour) (dry_run : bool)
    (recording : ZoomRecording.t) (s : State) :
  process_file cfg lib io dry_run recording s =
  let s1 := snd (print "\nprocessing file {file.type}.{file.file_extension}" s) in
  match format_filename cfg lib (params_of recording (file s)) with
  | Ok names => process_named cfg lib io dry_run recording (file s) names s1
  | Raise e => (Raise e, s1)
  end.
Proof.
  unfold process_file, process_named, params_of, local_path_of.
  unfold bind at 1 2 3. unfold get_file at 1, lift. cbn.
  destruct (format_filename cfg lib _); reflexivity.
Qed.

(** Closes [preserves no_new_transfer m] for a primitive [m]. *)
Ltac no_transfer_primitive :=
  let s := fresh "s" in
  intros s; unfold no_new_transfer, update_ledger, bind, get_file, emit,
    set_file_status, incr_failed_files, incr_completed_recordings,
    add_total_recording_size, create_file, open_rb, os_remove, on_ledger; cbn;
  repeat match goal with
         | |- context [match ?x with _ => _ end] => destruct x; cbn
         end;
  first [ exists []; rewrite app_nil_r; split; reflexivity
        | eexists; rewrite <- ?app_assoc; split; reflexivity ].

Lemma process_file_dry_run_preserves
    (cfg : Config) (lib : Library) (io : Behaviour) (recording : ZoomRecording.t) :
  preserves no_new_transfer (process_file cfg lib io true recording).
Proof.
  unfold process_file, handle_pending, handle_downloaded. cbv iota.
  repeat preserves_step; no_transfer_primitive.
Qed.

(** X18.  In a dry run no download request, no upload session and no
    chunk upload is ever made, whatever the status of the file and
    whatever the outside world would have answered. *)
Theorem dry_run_never_transfers
    (cfg : Config) (lib : Library) (io : Behaviour) (recording : ZoomRecording.t)
    (s : State) :
  exists evs,
    events (snd (process_file cfg lib io true recording s)) = events s ++ evs /\
    existsb is_transfer evs = false.
Proof. apply process_file_dry_run_preserves. Qed.

#[local] Instance staged_grows_preorder : PreOrder staged_grows.
Proof.
  split.
  - intros s p H. exact H.
  - intros s1 s2 s3 H12 H23 p H. apply H23, H12, H.
Qed.

(** Closes a goal on staged files for a primitive. *)
Ltac staged_primitive R :=
  let s := fresh "s" in
  intros s; unfold R, update_ledger, bind, get_file, emit,
    set_file_status, incr_failed_files, incr_completed_recordings,
    add_total_recording_size, create_file, open_rb, os_remove, on_ledger; cbn;
  repeat match goal with
         | |- context [match ?x with _ => _ end] => destruct x; cbn
         end;
  intros; rewrite ?elem_of_union, ?elem_of_difference, ?elem_of_singleton; auto.

Lemma handle_pending_staged_grows
    (cfg : Config) (lib : Library) (io : Behaviour) (dry_run : bool)
    (recording : ZoomRecording.t) (filename folder_name : string) :
  preserves staged_grows
    (handle_pending cfg lib io dry_run recording filename folder_name).
Proof.
  unfold handle_pending, download_recording.
  repeat preserves_step; staged_primitive staged_grows.
Qed.

Lemma handle_downloaded_keeps_staged
    (cfg : Config) (io : Behaviour) (dry_run : bool)
    (recording : ZoomRecording.t) (folder_name local_file_path : string) :
  preserves (keeps_staged_except local_file_path)
    (handle_downloaded cfg io dry_run recording folder_name local_file_path).
Proof.
  unfold handle_downloaded, upload_large_file.
  repeat preserves_step; staged_primitive keeps_staged_except.
Qed.

Lemma staged_grows_keeps (path : string) (s s' : State) :
  staged_grows s s' -> keeps_staged_except path s s'.
Proof. intros H p _ Hp. apply H, Hp. Qed.

Lemma process_named_keeps_staged
    (cfg : Config) (lib : Library) (io : Behaviour) (dry_run : bool)
    (recording : ZoomRecording.t) (f : RecordingFiles.t) (names : string * string) :
  preserves (keeps_staged_except (local_path_of cfg lib names))
    (process_named cfg lib io dry_run recording f names).
Proof.
  unfold process_named.
  apply preserves_bind; [typeclasses eauto| |intros go_on].
  - destruct (eq_str _ _); [|apply preserves_ret; typeclasses eauto].
    intros s. apply staged_grows_keeps, handle_pending_staged_grows.
  - destruct go_on; [|apply preserves_ret; typeclasses eauto].
    apply preserves_bind; [typeclasses eauto|apply preserves_get_file; typeclasses eauto|].
    intros f'. apply preserves_bind; [typeclasses eauto| |intros go_on'].
    + destruct (eq_str _ _); [|apply preserves_ret; typeclasses eauto].
      apply handle_downloaded_keeps_staged.
    + destruct go_on'; [|apply preserves_ret; typeclasses eauto].
      staged_primitive keeps_staged_except.
Qed.

(** X19.  Processing a file never deletes a staged file other than the
    one whose path is derived from that file's own names; and when the
    names cannot be derived nothing is deleted at all. *)
Theorem process_file_deletes_only_its_file
    (cfg : Config) (lib : Library) (io : Behaviour) (dry_run : bool)
    (recording : ZoomRecording.t) (s : State) (p : string) :
  p ∈ staged s ->
  p ∈ staged (snd (process_file cfg lib io dry_run recording s)) \/
  exists names,
    format_filename cfg lib (params_of recording (file s)) = Ok names /\
    p = local_path_of cfg lib names.
Proof.
  intros Hp. rewrite process_file_after_names. cbv zeta.
  destruct (format_filename cfg lib _) as [names|e] eqn:E.
  - destruct (string_dec p (local_path_of cfg lib names)) as [->|Hne]; [right; eauto|].
    left. apply (process_named_keeps_staged cfg lib io dry_run recording (file s) names);
      [exact Hne|exact Hp].
  - left. exact Hp.
Qed.

Lemma process_file_deletes_only_its_file_witness :
  "downloads/other.mp4"
  ∈ staged (snd (process_file example_config example_library
                   (example_behaviour DlCompletes None) false (example_recording [])
                   (initial_state (Parsed (JObj [])) {[example_path; "downloads/other.mp4"]}
                                  (example_file "downloaded")))).
Proof.
  destruct (process_file_deletes_only_its_file example_config example_library
              (example_behaviour DlCompletes None) false (example_recording [])
              (initial_state (Parsed (JObj [])) {[example_path; "downloads/other.mp4"]}
                             (example_file "downloaded"))
              "downloads/other.mp4") as [H|(names & Hn & Hp)].
  - apply (bool_decide_eq_true_1 (_ ∈ _)). vm_compute. reflexivity.
  - exact H.
  - exfalso. vm_compute in Hn. injection Hn as <-. vm_compute in Hp. discriminate Hp.
Defined.

(** ** The per-file state machine: terminal states and early failures *)

(** X20.  A file whose status is neither [pending] nor [downloaded]
    (so [uploaded], [download failed], [upload failed] or anything else)
    is left alone: when its names can be derived, processing it only
    prints two lines; nothing is retried. *)
Theorem process_file_other_status
    (cfg : Config) (lib : Library) (io : Behaviour) (dry_run : bool)
    (recording : ZoomRecording.t) (s : State) (names : string * string) :
  eq_str (RecordingFiles.status (file s)) "pending" = false ->
  eq_str (RecordingFiles.status (file s)) "downloaded" = false ->
  format_filename cfg lib (params_of recording (file s)) = Ok names ->
  process_file cfg lib io dry_run recording s
  = (Ok tt,
     mkState (ledger s) (staged s) (write_faults s)
       (events s ++
        [EvPrint "\nprocessing file {file.type}.{file.file_extension}";
         EvPrint "Finished processing file {recording.topic}.{file.file_extension}"])
       (total_recording_size s) (completed_recordings s) (failed_files s) (file s)).
Proof.
  intros Hp Hd Hn. rewrite process_file_after_names, Hn. cbv zeta.
  unfold process_named. rewrite Hp. run_monad. rewrite Hd. cbn.
  rewrite <- app_assoc. reflexivity.
Qed.

Lemma process_file_other_status_witness :
  fst (process_file example_config example_library (example_behaviour DlCompletes None)
         false (example_recording [])
         (initial_state example_ledger ∅ (example_file "upload failed")))
  = Ok tt.
Proof.
  rewrite (process_file_other_status example_config example_library
             (example_behaviour DlCompletes None) false (example_recording [])
             (initial_state example_ledger ∅ (example_file "upload failed"))
             ("2025.03.14 - Weekly_sync - Audio Only - f-1.mp4", "Weekly_sync - 2025.03.14")
             eq_refl eq_refl eq_refl).
  reflexivity.
Defined.

(** X21.  The names are derived before the status is looked at and
    outside any [try]: for a file entry without a string
    ["recording_type"] (the constructor then stores [None]),
    [process_file] raises [AttributeError] after its first print,
    whatever the status of the file, and nothing else happens. *)
Theorem process_file_without_recording_type
    (cfg : Config) (lib : Library) (io : Behaviour) (dry_run : bool)
    (recording : ZoomRecording.t) (s : State) (topic : string) :
  ZoomRecording.topic recording = JStr topic ->
  (forall t, RecordingFiles.type (file s) <> JStr t) ->
  process_file cfg lib io dry_run recording s
  = (Raise AttributeError,
     mkState (ledger s) (staged s) (write_faults s)
       (events s ++ [EvPrint "\nprocessing file {file.type}.{file.file_extension}"])
       (total_recording_size s) (completed_recordings s) (failed_files s) (file s)).
Proof.
  intros Ht Hty. rewrite process_file_after_names. cbv zeta.
  unfold format_filename, params_of. cbn [p_recording p_recording_type]. rewrite Ht.
  destruct (RecordingFiles.type (file s)) as [| | |t| |] eqn:E; try reflexivity.
  exfalso. exact (Hty t eq_refl).
Qed.

Lemma process_file_without_recording_type_witness :
  fst (process_file example_config example_library (example_behaviour DlCompletes None)
         false (example_recording [])
         (initial_state (Parsed (JObj [])) ∅
            {| RecordingFiles.download_url := JStr "https://zoom.example/rec/f-2";
               RecordingFiles.file_extension := "json";
               RecordingFiles.id := JStr "f-2";
               RecordingFiles.status := JStr "uploaded";
               RecordingFiles.type := JNull |}))
  = Raise AttributeError.
Proof.
  rewrite (process_file_without_recording_type example_config example_library
             (example_behaviour DlCompletes None) false (example_recording [])
             _ "Weekly: sync?" eq_refl).
  - reflexivity.
  - intros t. discriminate.
Defined.

(** ** The upload block of [main] *)

#[local] Instance same_but_ledger_preorder : PreOrder same_but_ledger.
Proof.
  split.
  - intros s. unfold same_but_ledger. tauto.
  - intros s1 s2 s3. unfold same_but_ledger. intuition congruence.
Qed.

Lemma update_meeting_json_file_ok_inv
    (fault : write_fault) (meeting_id : json) (meeting_json : dict)
    (old new : file_content) :
  update_meeting_json_file fault meeting_id meeting_json old = (Ok tt, new) ->
  exists data data',
    load_or_empty old = Ok data /\
    merge_entry data meeting_id meeting_json = Ok data' /\
    new = Parsed data'.
Proof.
  unfold update_meeting_json_file.
  destruct (load_or_empty old) as [data|e] eqn:Hl; [|discriminate].
  destruct (merge_entry data meeting_id meeting_json) as [data'|e] eqn:Hm; [|discriminate].
  intros Hw. exists data, data'. split; [reflexivity|]. split; [exact Hm|].
  destruct old, fault; cbn in Hw; try discriminate; congruence.
Qed.

Lemma update_ledger_frame (recording : ZoomRecording.t) :
  preserves same_but_ledger (update_ledger recording).
Proof.
  unfold update_ledger. repeat preserves_step; preserves_primitive same_but_ledger.
Qed.

Lemma update_ledger_ok_inv (recording : ZoomRecording.t) (s s' : State) :
  update_ledger recording s = (Ok tt, s') ->
  exists data data',
    load_or_empty (ledger s) = Ok data /\
    merge_entry data (ZoomRecording.id recording) (RecordingFiles.to_json (file s)) = Ok data' /\
    ledger s' = Parsed data'.
Proof.
  unfold update_ledger, on_ledger, bind, get_file, emit. cbn.
  destruct (update_meeting_json_file _ _ _ _) as [[[]|e] c] eqn:E; [|discriminate].
  intros [= <-]. cbn. exact (update_meeting_json_file_ok_inv _ _ _ _ _ E).
Qed.


(** Case analysis on what the tail of the upload block looks at, with
    the ledger update kept as one step. *)
Ltac crunch_upload_block :=
  repeat (cbn -[update_ledger];
          match goal with
          | |- context [match ZoomRecording.size ?r with _ => _ end] =>
              destruct (ZoomRecording.size r) as [|[]| | | |]
          | |- context [update_ledger ?r ?s1] =>
              let HL := fresh "HL" in
              let Hst := fresh "Hst" in
              let Hc := fresh "Hc" in
              let Hf := fresh "Hf" in
              let Hfile := fresh "Hfile" in
              pose proof (update_ledger_frame r s1) as HL;
              destruct (update_ledger r s1) as [[[]|?] ?];
              destruct HL as (Hst & _ & Hc & Hf & Hfile);
              cbn -[update_ledger] in Hst, Hc, Hf, Hfile
          | |- context [bool_decide ?P] => destruct (bool_decide P)
          end).

(** X22.  Every pass through the upload block counts the file exactly
    once: it adds one either to the failed files or to the completed
    recordings, never to both and never to neither, whether the block
    ends normally, in [continue], or by an exception. *)
Theorem handle_downloaded_counts_once
    (cfg : Config) (io : Behaviour) (dry_run : bool) (recording : ZoomRecording.t)
    (folder_name local_file_path : string) (s : State) :
  let s' := snd (handle_downloaded cfg io dry_run recording folder_name local_file_path s) in
  (failed_files s' = failed_files s + 1 /\ completed_recordings s' = completed_recordings s) \/
  (failed_files s' = failed_files s /\ completed_recordings s' = completed_recordings s + 1).
Proof.
  cbv zeta. unfold handle_downloaded. cbv zeta.
  match goal with
  | |- context [upload_large_file ?a ?b ?c ?d] =>
      pose proof (upload_large_file_frame a b c d) as HU;
      generalize dependent (upload_large_file a b c d)
  end.
  intros U HU.
  unfold bind, try_except, ret, print, emit, set_file_status, incr_failed_files,
    incr_completed_recordings, add_total_recording_size, os_remove.
  destruct dry_run; cbn -[update_ledger].
  - crunch_upload_block; cbn; rewrite ?Hc, ?Hf; right; split; reflexivity.
  - match goal with |- context [U ?s1] => specialize (HU s1); destruct (U s1) as [[[]|e] s2] end;
      cbn -[update_ledger] in HU |- *; destruct HU as (_ & _ & _ & _ & Hc0 & Hf0 & _);
      cbn in Hc0, Hf0;
      crunch_upload_block; cbn; rewrite ?Hc, ?Hf; cbn; rewrite ?Hc0, ?Hf0;
      (left; split; reflexivity) || (right; split; reflexivity).
Qed.

(** X23.  The staged file is deleted only after the ledger has been
    rewritten with status [uploaded]: if the file was staged before the
    upload block and is gone after it, the block ended normally, the
    file object says [uploaded], and the ledger file holds the merge of
    that record. *)
Theorem staged_file_deleted_after_ledger_write
    (cfg : Config) (io : Behaviour) (dry_run : bool) (recording : ZoomRecording.t)
    (folder_name local_file_path : string) (s : State) :
  let out := handle_downloaded cfg io dry_run recording folder_name local_file_path s in
  local_file_path ∈ staged s ->
  local_file_path ∉ staged (snd out) ->
  fst out = Ok true /\
  RecordingFiles.status (file (snd out)) = JStr "uploaded" /\
  exists data data',
    load_or_empty (ledger s) = Ok data /\
    merge_entry data (ZoomRecording.id recording)
      (RecordingFiles.to_json (RecordingFiles.set_status "uploaded" (file s))) = Ok data' /\
    ledger (snd out) = Parsed data'.
Proof.
  cbv zeta. unfold handle_downloaded. cbv zeta.
  match goal with
  | |- context [upload_large_file ?a ?b ?c ?d] =>
      pose proof (upload_large_file_frame a b c d) as HU;
      generalize dependent (upload_large_file a b c d)
  end.
  intros U HU Hin.
  assert (Hkept : forall s1 : State, staged s1 = staged s -> local_file_path ∉ staged s1 -> False)
    by (intros s1 E H; rewrite E in H; exact (H Hin)).
  unfold bind, try_except, ret, print, emit, set_file_status, incr_failed_files,
    incr_completed_recordings, add_total_recording_size, os_remove.
  destruct dry_run; cbn -[update_ledger].
  - destruct (ZoomRecording.size recording) as [|[]|n| | |]; cbn -[update_ledger];
      try (intros Hout; exfalso; exact (Hout Hin));
      match goal with
      | |- context [update_ledger ?r ?s1] =>
          pose proof (update_ledger_frame r s1) as HL;
          pose proof (update_ledger_ok_inv r s1) as Hinv;
          destruct (update_ledger r s1) as [[[]|?] s3];
          destruct HL as (Hst & _ & _ & _ & Hfile); cbn -[update_ledger] in Hst, Hfile, Hinv
      end; cbn -[update_ledger];
      try (intros Hout; exfalso; exact (Hkept _ Hst Hout));
      (destruct (bool_decide _) eqn:Eb; cbn;
       [|intros Hout; exfalso; exact (Hkept _ Hst Hout)]);
      intros _; (split; [reflexivity|]); rewrite Hfile; (split; [reflexivity|]);
      exact (Hinv _ eq_refl).
  - match goal with |- context [U ?s1] => specialize (HU s1); destruct (U s1) as [[[]|e] s2] end;
      cbn -[update_ledger] in HU |- *; destruct HU as (Hl & Hs & Hw & _ & _ & _ & Hf0);
      cbn in Hl, Hs, Hw, Hf0.
    + destruct (ZoomRecording.size recording) as [|[]|n| | |]; cbn -[update_ledger];
        try (intros Hout; exfalso; exact (Hkept _ Hs Hout));
        match goal with
        | |- context [update_ledger ?r ?s1] =>
            pose proof (update_ledger_frame r s1) as HL;
            pose proof (update_ledger_ok_inv r s1) as Hinv;
            destruct (update_ledger r s1) as [[[]|?] s3];
            destruct HL as (Hst & _ & _ & _ & Hfile); cbn -[update_ledger] in Hst, Hfile, Hinv
        end; cbn -[update_ledger];
        try (intros Hout; exfalso; apply (Hkept _ (eq_trans Hst Hs) Hout));
        (destruct (bool_decide _) eqn:Eb; cbn;
         [|intros Hout; exfalso; apply (Hkept _ (eq_trans Hst Hs) Hout)]);
        intros _; (split; [reflexivity|]); rewrite Hfile, Hf0; (split; [reflexivity|]);
        rewrite Hl, Hf0 in Hinv; exact (Hinv _ eq_refl).
    + match goal with
      | |- context [update_ledger ?r ?s1] =>
          pose proof (update_ledger_frame r s1) as HL;
          destruct (update_ledger r s1) as [[[]|?] s3];
          destruct HL as (Hst & _); cbn -[update_ledger] in Hst
      end; cbn; intros Hout; exfalso; apply (Hkept _ (eq_trans Hst Hs) Hout).
Qed.

Lemma staged_file_deleted_after_ledger_write_witness :
  let out := handle_downloaded example_config (example_behaviour DlCompletes None) false
               (example_recording []) "Weekly_sync - 2025.03.14" example_path
               (initial_state (Parsed (JObj [])) {[example_path]} (example_file "downloaded")) in
  fst out = Ok true /\
  RecordingFiles.status (file (snd out)) = JStr "uploaded".
Proof.
  cbv zeta.
  destruct (staged_file_deleted_after_ledger_write example_config
              (example_behaviour DlCompletes None) false (example_recording [])
              "Weekly_sync - 2025.03.14" example_path
              (initial_state (Parsed (JObj [])) {[example_path]} (example_file "downloaded")))
    as (H1 & H2 & _).
  - apply (bool_decide_eq_true_1 (example_path ∈ _)). vm_compute. reflexivity.
  - apply (bool_decide_eq_false_1 (example_path ∈ _)). vm_compute. reflexivity.
  - split; assumption.
Defined.

(** ** Running the blocks of [main] step by step *)















(** ** [get_recordings_for_users] and the loop over recordings *)

Lemma ZoomRecording_init_user (meeting_json : json) (user : string) (r : ZoomRecording.t) :
  ZoomRecording.init meeting_json (Some user) = Ok r -> ZoomRecording.user r = user.
Proof.
  cbn. destruct meeting_json as [| | | | |d]; try discriminate.
  destruct (py_iter _) as [items|]; [|discriminate].
  destruct (ZoomRecording.append_recording_files items []); [|discriminate].
  intros [= <-]. reflexivity.
Qed.

Lemma append_recordings_owner (meetings : list json) (user : string) :
  forall acc rs,
    append_recordings meetings user acc = Ok rs ->
    exists new, rs = acc ++ new /\
                length new = length meetings /\
                Forall (fun r => ZoomRecording.user r = user) new.
Proof.
  induction meetings as [|m meetings IH]; intros acc rs; cbn [append_recordings].
  - intros [= <-]. exists []. rewrite app_nil_r. repeat split. constructor.
  - destruct (ZoomRecording.init m (Some user)) as [r|e] eqn:E; [|discriminate].
    intros H. destruct (IH _ _ H) as (new & -> & Hlen & Hall).
    exists (r :: new). rewrite <- app_assoc. split; [reflexivity|].
    split; [cbn; rewrite Hlen; reflexivity|].
    constructor; [exact (ZoomRecording_init_user _ _ _ E)|exact Hall].
Qed.

Lemma get_recordings_for_users_owner (cfg : Config) (net : network) (users : list string) :
  forall acc rs,
    get_recordings_for_users cfg net users acc = Some (Ok rs) ->
    exists new, rs = acc ++ new /\
                Forall (fun r => In (ZoomRecording.user r) users) new.
Proof.
  induction users as [|u users IH]; intros acc rs; cbn [get_recordings_for_users].
  - intros [= <-]. exists []. rewrite app_nil_r. split; [reflexivity|constructor].
  - destruct (list_recordings net u _ _) as [[ms|e]|]; try discriminate.
    destruct (append_recordings ms u acc) as [acc'|e] eqn:E; [|discriminate].
    intros H. destruct (IH _ _ H) as (new & -> & Hall).
    destruct (append_recordings_owner _ _ _ _ E) as (mine & -> & _ & Hmine).
    exists (mine ++ new). rewrite <- app_assoc. split; [reflexivity|].
    apply Forall_app. split.
    + eapply List.Forall_impl; [|exact Hmine]. intros r <-. left. reflexivity.
    + eapply List.Forall_impl; [|exact Hall]. intros r Hr. right. exact Hr.
Qed.

(** X26.  Every recording that [get_recordings_for_users] returns is
    owned by one of the users it was asked for, so for the recordings
    that come from the listing the test [recording.user not in users] of
    [main] is never true. *)
Theorem listed_recordings_belong_to_users
    (cfg : Config) (net : network) (users : list string) (rs : list ZoomRecording.t) :
  get_recordings_for_users cfg net users [] = Some (Ok rs) ->
  Forall (fun r => existsb (String.eqb (ZoomRecording.user r)) users = true) rs.
Proof.
  intros H. destruct (get_recordings_for_users_owner _ _ _ _ _ H) as (new & -> & Hall).
  cbn. eapply List.Forall_impl; [|exact Hall].
  intros r Hr. apply existsb_exists. exists (ZoomRecording.user r).
  split; [exact Hr|apply String.eqb_refl].
Qed.

Lemma listed_recordings_belong_to_users_witness :
  exists rs,
    get_recordings_for_users example_config net_one_meeting ["user@example.com"] []
    = Some (Ok rs) /\
    length rs = 1%nat /\
    Forall (fun r => existsb (String.eqb (ZoomRecording.user r)) ["user@example.com"] = true) rs.
Proof.
  eexists. split; [vm_compute; reflexivity|]. split; [reflexivity|].
  apply (listed_recordings_belong_to_users example_config net_one_meeting).
  vm_compute. reflexivity.
Defined.

(** X27.  Recordings whose owner is not in the user list are skipped:
    if that holds for all recordings, the loop prints two lines per
    recording and changes nothing else; no file is processed. *)
Theorem process_recordings_skips_other_users
    (cfg : Config) (lib : Library) (io : RecordingFiles.t -> Behaviour)
    (dry_run : bool) (users : list string) (recordings : list ZoomRecording.t) :
  Forall (fun r => existsb (String.eqb (ZoomRecording.user r)) users = false) recordings ->
  forall s,
  exists evs,
    process_recordings cfg lib io dry_run users recordings s
    = (Ok tt,
       mkState (ledger s) (staged s) (write_faults s) (events s ++ evs)
               (total_recording_size s) (completed_recordings s) (failed_files s) (file s)) /\
    forallb is_print evs = true /\
    length evs = (2 * length recordings)%nat.
Proof.
  induction 1 as [|r recordings Hr Hall IH]; intros s.
  - exists []. rewrite app_nil_r. destruct s. repeat split.
  - cbn [process_recordings]. rewrite Hr. run_monad.
    match goal with |- context [process_recordings _ _ _ _ _ _ ?s1] =>
      destruct (IH s1) as (evs & -> & Hp & Hlen) end.
    cbn. eexists. rewrite <- !app_assoc. split; [reflexivity|].
    cbn. split; [exact Hp|]. rewrite Hlen. lia.
Qed.

Lemma process_recordings_skips_other_users_witness :
  exists evs,
    process_recordings example_config example_library
      (fun _ => example_behaviour DlCompletes None) false ["other@example.com"]
      [example_recording [example_file "pending"]]
      (initial_state (Parsed (JObj [])) ∅ (example_file "pending"))
    = (Ok tt, mkState (Parsed (JObj [])) ∅ [] ([] ++ evs) 0 0 0 (example_file "pending")) /\
    forallb is_print evs = true /\
    length evs = (2 * 1)%nat.
Proof.
  apply (process_recordings_skips_other_users example_config example_library
           (fun _ => example_behaviour DlCompletes None) false ["other@example.com"]
           [example_recording [example_file "pending"]]).
  repeat constructor.
Defined.

(** ** Derived names *)







(** ** [remove_empty_subfolders] *)

Lemma is_child_of_spec (q w : path) :
  is_child_of q w = true <-> length q = S (length w) /\ take (length w) q = w.
Proof.
  unfold is_child_of. rewrite andb_true_iff, Nat.eqb_eq, bool_decide_eq_true. tauto.
Qed.

Lemma proper_prefix_spec (p f : path) :
  proper_prefix p f = true <-> (length p < length f)%nat /\ take (length p) f = p.
Proof.
  unfold proper_prefix. rewrite andb_true_iff, Nat.ltb_lt, bool_decide_eq_true. tauto.
Qed.

Lemma child_is_below (q w : path) :
  is_child_of q w = true -> proper_prefix w q = true.
Proof.
  rewrite is_child_of_spec, proper_prefix_spec. intros [Hl Ht]. split; [lia|exact Ht].
Qed.

Lemma below_child_below (q w f : path) :
  is_child_of q w = true -> proper_prefix q f = true -> proper_prefix w f = true.
Proof.
  rewrite is_child_of_spec, !proper_prefix_spec. intros [Hl Ht] [Hl' Ht'].
  split; [lia|]. rewrite <- Ht at 2. rewrite <- Ht'.
  rewrite take_take. f_equal. lia.
Qed.

Lemma below_has_child (w f : path) :
  proper_prefix w f = true ->
  is_child_of f w = true \/
  (is_child_of (take (S (length w)) f) w = true /\
   proper_prefix (take (S (length w)) f) f = true).
Proof.
  rewrite proper_prefix_spec. intros [Hl Ht].
  destruct (Nat.eq_dec (length f) (S (length w))) as [E|NE].
  - left. apply is_child_of_spec. split; assumption.
  - right. assert (Hlen : length (take (S (length w)) f) = S (length w))
      by (rewrite length_take; lia).
    split.
    + apply is_child_of_spec. split; [exact Hlen|].
      rewrite take_take. rewrite Nat.min_l by lia. exact Ht.
    + apply proper_prefix_spec. rewrite Hlen. split; [lia|reflexivity].
Qed.

Lemma listdir_nil (dirs files : gset path) (p : path) :
  listdir dirs files p = [] <->
  forall q, q ∈ dirs \/ q ∈ files -> is_child_of q p = false.
Proof.
  unfold listdir. split.
  - intros Hnil q Hq. destruct (is_child_of q p) eqn:E; [|reflexivity].
    assert (Hin : q ∈ filter (fun q => is_child_of q p) (elements dirs ++ elements files)).
    { apply list_elem_of_filter. split; [rewrite E; exact I|].
      apply elem_of_app. rewrite !elem_of_elements. exact Hq. }
    rewrite Hnil in Hin. apply elem_of_nil in Hin. destruct Hin.
  - intros Hall. apply elem_of_nil_inv. intros q Hin.
    apply list_elem_of_filter in Hin as [Hc Hq].
    apply elem_of_app in Hq. rewrite !elem_of_elements in Hq.
    rewrite (Hall q Hq) in Hc. exact Hc.
Qed.

Lemma top_down_earlier (pre : list path) (w : path) (rest : list path) :
  top_down (pre ++ w :: rest) = true ->
  forall q, In q pre -> is_child_of q w = false.
Proof.
  induction pre as [|a pre IH]; cbn [app top_down]; intros H q Hq; [destruct Hq|].
  apply andb_true_iff in H as [Ha Hrest].
  destruct Hq as [<-|Hq]; [|exact (IH Hrest q Hq)].
  rewrite forallb_forall in Ha. specialize (Ha w).
  apply negb_true_iff, Ha, in_or_app. right. left. reflexivity.
Qed.

Lemma has_file_below_spec (files : gset path) (p : path) :
  has_file_below files p = true <-> exists f, f ∈ files /\ proper_prefix p f = true.
Proof.
  unfold has_file_below. rewrite existsb_exists. split.
  - intros (f & Hin & Hf). exists f. split; [|exact Hf].
    apply elem_of_elements, list_elem_of_In. exact Hin.
  - intros (f & Hin & Hf). exists f. split; [|exact Hf].
    apply list_elem_of_In, elem_of_elements. exact Hin.
Qed.

Lemma ancestors_present_spec (dirs files : gset path) :
  ancestors_present dirs files = true ->
  forall f p, f ∈ files -> p ∈ dirs -> proper_prefix p f = true ->
              is_child_of f p = true \/ take (S (length p)) f ∈ dirs.
Proof.
  unfold ancestors_present. intros H f p Hf Hp Hpf.
  rewrite forallb_forall in H.
  specialize (H f ltac:(apply list_elem_of_In, elem_of_elements; exact Hf)).
  rewrite forallb_forall in H.
  specialize (H p ltac:(apply list_elem_of_In, elem_of_elements; exact Hp)).
  rewrite Hpf in H. cbn in H. apply orb_true_iff in H as [H|H]; [left; exact H|].
  right. apply bool_decide_eq_true in H. exact H.
Qed.

Section RemoveEmpty.

Variable walk : list path.
Variables files dirs : gset path.

Hypothesis walk_nodup : NoDup walk.
Hypothesis walk_lists_dirs : forall p, p ∈ dirs <-> In p walk.
Hypothesis walk_top_down : top_down walk = true.
Hypothesis fs_ancestors : ancestors_present dirs files = true.

Lemma remove_empty_suffix (rest : list path) :
  forall pre, walk = pre ++ rest ->
  forall p,
    p ∈ fold_right (fun p d => rmdir_if_empty files d p) dirs rest <->
    p ∈ dirs /\ (In p rest -> has_file_below files p = true).
Proof.
  induction rest as [|w rest IH]; intros pre Hwalk p.
  - cbn. split; [intros H; split; [exact H|intros []]|intros [H _]; exact H].
  - cbn [fold_right].
    set (D := fold_right (fun p d => rmdir_if_empty files d p) dirs rest) in *.
    assert (IH' : forall p, p ∈ D <-> p ∈ dirs /\ (In p rest -> has_file_below files p = true)).
    { apply (IH (pre ++ [w])). rewrite <- app_assoc. exact Hwalk. }
    assert (Hw_dir : w ∈ dirs).
    { apply walk_lists_dirs. rewrite Hwalk. apply in_or_app. right. left. reflexivity. }
    assert (Hw_rest : ~ In w rest).
    { rewrite Hwalk in walk_nodup. apply NoDup_app in walk_nodup as (_ & _ & Hnd).
      apply NoDup_cons in Hnd as [Hnot _]. intros Hin. apply Hnot, list_elem_of_In, Hin. }
    assert (Hchild_later : forall q, q ∈ dirs -> is_child_of q w = true -> In q rest).
    { intros q Hq Hc. apply walk_lists_dirs in Hq. rewrite Hwalk in Hq.
      apply in_app_or in Hq as [Hq|[<-|Hq]]; [| |exact Hq].
      - rewrite Hwalk in walk_top_down.
        rewrite (top_down_earlier _ _ _ walk_top_down q Hq) in Hc. discriminate.
      - apply is_child_of_spec in Hc as [Hl _]. lia. }
    assert (Hempty : listdir D files w = [] <-> has_file_below files w = false).
    { rewrite listdir_nil. split.
      - intros Hnone. destruct (has_file_below files w) eqn:E; [|reflexivity].
        apply has_file_below_spec in E as (f & Hf & Hwf).
        destruct (ancestors_present_spec _ _ fs_ancestors f w Hf Hw_dir Hwf) as [Hc|Hq].
        + rewrite (Hnone f (or_intror Hf)) in Hc. discriminate.
        + destruct (below_has_child w f Hwf) as [Hc|[Hc Hqf]].
          * rewrite (Hnone f (or_intror Hf)) in Hc. discriminate.
          * assert (HqD : take (S (length w)) f ∈ D).
            { apply IH'. split; [exact Hq|]. intros _.
              apply has_file_below_spec. exists f. split; assumption. }
            rewrite (Hnone _ (or_introl HqD)) in Hc. discriminate.
      - intros Hnone q [Hq|Hq]; destruct (is_child_of q w) eqn:E; try reflexivity.
        + apply IH' in Hq as [Hqd Hqf].
          specialize (Hqf (Hchild_later q Hqd E)).
          apply has_file_below_spec in Hqf as (f & Hf & Hqf).
          assert (has_file_below files w = true).
          { apply has_file_below_spec. exists f. split; [exact Hf|].
            exact (below_child_below q w f E Hqf). }
          congruence.
        + assert (has_file_below files w = true).
          { apply has_file_below_spec. exists q. split; [exact Hq|].
            exact (child_is_below q w E). }
          congruence. }
    unfold rmdir_if_empty. destruct (listdir D files w) as [|x l] eqn:El.
    + assert (Hno : has_file_below files w = false) by (apply Hempty; reflexivity).
      rewrite elem_of_difference, elem_of_singleton, IH'. split.
      * intros [[Hp Hr] Hne]. split; [exact Hp|].
        intros [<-|Hin]; [congruence|exact (Hr Hin)].
      * intros [Hp Hr]. split; [split; [exact Hp|intros Hin; apply Hr; right; exact Hin]|].
        intros ->. specialize (Hr (or_introl eq_refl)). congruence.
    + assert (Hyes : has_file_below files w = true).
      { destruct (has_file_below files w) eqn:E; [reflexivity|].
        destruct Hempty as [_ Hback]. discriminate (Hback eq_refl). }
      rewrite IH'. split.
      * intros [Hp Hr]. split; [exact Hp|].
        intros [<-|Hin]; [exact Hyes|exact (Hr Hin)].
      * intros [Hp Hr]. split; [exact Hp|intros Hin; apply Hr; right; exact Hin].
Qed.

End RemoveEmpty.

(** X29.  After [remove_empty_subfolders], the directories that remain
    under the root are exactly those with a file somewhere below them:
    every directory without any file in its subtree is removed in the
    same pass, parents emptied by the removal of their children (and the
    root itself) included, and no directory that contains a file is
    touched.  This holds for every top-down listing of the directories
    by [os.walk]. *)
Theorem remove_empty_subfolders_result
    (walk : list path) (files dirs : gset path) :
  bool_decide (NoDup walk) = true ->
  list_to_set walk = dirs ->
  top_down walk = true ->
  ancestors_present dirs files = true ->
  forall p,
    p ∈ remove_empty_subfolders walk files dirs <->
    p ∈ dirs /\ has_file_below files p = true.
Proof.
  intros Hnd Hdirs Htd Hanc p.
  apply bool_decide_eq_true in Hnd.
  assert (Hlist : forall q, q ∈ dirs <-> In q walk).
  { intros q. rewrite <- Hdirs, elem_of_list_to_set. apply list_elem_of_In. }
  unfold remove_empty_subfolders.
  rewrite <- (fold_left_rev_right (fun p d => rmdir_if_empty files d p)).
  rewrite rev_involutive.
  rewrite (remove_empty_suffix walk files dirs Hnd Hlist Htd Hanc walk [] eq_refl p).
  split; [|intros [H1 H2]; split; auto].
  intros [Hp Hr]. split; [exact Hp|]. apply Hr, Hlist, Hp.
Qed.

Lemma remove_empty_subfolders_result_witness :
  ["downloads"; "a"]
    ∈ remove_empty_subfolders
        [["downloads"]; ["downloads"; "a"]; ["downloads"; "a"; "old"]; ["downloads"; "b"]]
        {[ ["downloads"; "b"; "kept.mp4"] ]}
        {[ ["downloads"]; ["downloads"; "a"]; ["downloads"; "a"; "old"]; ["downloads"; "b"] ]}
  <->
  ["downloads"; "a"]
    ∈ ({[ ["downloads"]; ["downloads"; "a"]; ["downloads"; "a"; "old"]; ["downloads"; "b"] ]}
         : gset path)
  /\ has_file_below {[ ["downloads"; "b"; "kept.mp4"] ]} ["downloads"; "a"] = true.
Proof.
  apply remove_empty_subfolders_result; vm_compute; reflexivity.
Defined.
